(** * SideBySide (abhi.py): a shallow embedding and its verified properties

    The script launches two ffplay windows side by side.  It is a linear
    program: argument interpretation, two file checks, a display query, an
    ffprobe run whose diagnostic text is searched for the frame size, the
    window geometry, two launches each followed by a bounded readiness
    wait, and a final poll loop.

    Conventions of the embedding.
    - A Python [str] is a [string]; its characters are code points below
      256, so [str.lower] and the regular expression class [\d] are the
      Latin-1 restrictions of the Unicode ones.
    - A Python [int] is a [Z].  A Python [float] is a binary64 value,
      a [spec_float] with precision 53 and maximal exponent 1024.
    - The outside world (command line, file system, display, ffprobe,
      the AutoIt window controller) is a record of oracles, [World].
    - Effects are the chronological list of [event]s; [sys.exit] and
      uncaught exceptions end the run with an [outcome]. *)

From Stdlib Require Import ZArith Bool List String Ascii Lia DecimalString.
From Stdlib Require Import SpecFloat Zpower QArith Qround.
Import ListNotations.

Close Scope Q_scope.

Local Open Scope string_scope.

(** ** Python primitives on strings *)

Module Py.

(** The line feed, the quotation mark and the characters the script
    tests for. *)
Definition LF : ascii := "010"%char.
Definition nl : string := String LF "".
Definition dq : string := String "034"%char "".

(** [c in chars], for a character and a string used as a set. *)
Fixpoint mem (c : ascii) (chars : string) : bool :=
  match chars with
  | "" => false
  | String d r => Ascii.eqb c d || mem c r
  end.

(** [str.lstrip(chars)], [str.rstrip(chars)] and [str.strip(chars)]:
    the longest prefix, suffix, or both, made of characters of [chars]
    is removed. *)
Fixpoint lstrip (chars s : string) : string :=
  match s with
  | "" => ""
  | String c r => if mem c chars then lstrip chars r else s
  end.

Fixpoint rstrip (chars s : string) : string :=
  match s with
  | "" => ""
  | String c r =>
      match rstrip chars r with
      | "" => if mem c chars then "" else String c ""
      | r' => String c r'
      end
  end.

Definition strip (chars s : string) : string := rstrip chars (lstrip chars s).

(** [str.lower()] on code points below 256: the letters A-Z and the
    Latin-1 capitals U+00C0-U+00DE other than the multiplication sign
    U+00D7 move up by 32. *)
Definition lower_char (c : ascii) : ascii :=
  let n := nat_of_ascii c in
  if ((65 <=? n) && (n <=? 90))%nat
     || ((192 <=? n) && (n <=? 222) && negb (n =? 215))%nat
  then ascii_of_nat (n + 32) else c.

Fixpoint lower (s : string) : string :=
  match s with
  | "" => ""
  | String c r => String (lower_char c) (lower r)
  end.

(** [sep.join(parts)]. *)
Definition join (sep : string) (parts : list string) : string :=
  String.concat sep parts.

(** [s.split(sep)] for a one-character separator: the pieces between
    consecutive separators, empty pieces included. *)
Fixpoint split (sep : ascii) (s : string) : list string :=
  match s with
  | "" => [""]
  | String c r =>
      if Ascii.eqb c sep then "" :: split sep r
      else match split sep r with
           | [] => [String c ""]
           | p :: ps => String c p :: ps
           end
  end.

(** [sub in s]. *)
Fixpoint contains (sub s : string) : bool :=
  String.prefix sub s ||
  match s with
  | "" => false
  | String _ r => contains sub r
  end.

(** [str(n)] for an [int]. *)
Definition str (n : Z) : string := NilZero.string_of_int (Z.to_int n).

(** The decimal digits, [\d] below code point 256. *)
Definition is_digit (c : ascii) : bool :=
  let n := nat_of_ascii c in ((48 <=? n) && (n <=? 57))%nat.

End Py.

(** ** The argument interpreter (script lines 133-147) *)

Definition GREY : string :=
  "-vf colorchannelmixer=.3:.4:.3:0:.3:.4:.3:0:.3:.4:.3".

Definition SEPIA : string :=
  "-vf colorchannelmixer=.393:.769:.189:0:.349:.686:.168:0:.272:.534:.131".

(** ['-vf colorlevels=rimin=%s:gimin=%s:bimin=%s' % (cval, cval, cval)] *)
Definition contrast_filter (cval : string) : string :=
  "-vf colorlevels=rimin=" ++ cval ++ ":gimin=" ++ cval ++ ":bimin=" ++ cval.

(** ['-vf eq=gamma=%s' % gval] *)
Definition gamma_filter (gval : string) : string :=
  "-vf eq=gamma=" ++ gval.

(** The value of [args] after the [if len(sys.argv) > 3: ... else: ...]
    statement, as a function of [sys.argv]. *)
Definition passthrough_args (argv : list string) : string :=
  if (3 <? List.length argv)%nat then
    let flag := Py.lower (nth 3 argv "") in
    if flag =? "-grey" then GREY
    else if flag =? "-sepia" then SEPIA
    else if (flag =? "-contrast") && (4 <? List.length argv)%nat then
      contrast_filter (Py.strip "0" (nth 4 argv ""))
    else if (flag =? "-gamma") && (4 <? List.length argv)%nat then
      gamma_filter (Py.strip "0" (nth 4 argv ""))
    else Py.join " " (skipn 3 argv)
  else "".

(** ** Python numbers *)

(** The exceptions the modelled statements can raise. *)
Inductive exn : Type :=
| ZeroDivisionError
| OverflowError
| ValueError.

(** The value of an expression, or the exception it raises. *)
Inductive res (A : Type) : Type :=
| OK (a : A)
| Raise (e : exn).

Arguments OK {A} a.
Arguments Raise {A} e.

Definition res_bind {A B : Type} (r : res A) (k : A -> res B) : res B :=
  match r with
  | OK a => k a
  | Raise e => Raise e
  end.

Declare Scope res_scope.
Delimit Scope res_scope with res.
Notation "x <- r ;; k" := (res_bind r (fun x => k))
  (at level 61, r at next level, right associativity) : res_scope.

Module PyFloat.

(** binary64 *)
Definition prec : Z := 53.
Definition emax : Z := 1024.

Definition is_neg (n : Z) : bool := (n <? 0)%Z.

(** [a / b] on two [int]s: the quotient rounded once, to the nearest
    double, ties to even (CPython's [long_true_divide]).  A zero
    divisor raises; so does a quotient too large for a double. *)
Definition int_truediv (a b : Z) : res spec_float :=
  match a, b with
  | _, Z0 => Raise ZeroDivisionError
  | Z0, _ => OK (S754_zero (is_neg b))
  | _, _ =>
      match SFdiv prec emax
              (S754_finite (is_neg a) (Z.to_pos (Z.abs a)) 0)
              (S754_finite (is_neg b) (Z.to_pos (Z.abs b)) 0) with
      | S754_infinity _ => Raise OverflowError
      | q => OK q
      end
  end.

(** [float(n)] for an [int]: the nearest double, or [OverflowError]. *)
Definition of_int (n : Z) : res spec_float :=
  match binary_normalize prec emax n 0 false with
  | S754_infinity _ => Raise OverflowError
  | f => OK f
  end.

(** [x / y] on two [float]s: IEEE division, except that a zero
    divisor raises. *)
Definition truediv (x y : spec_float) : res spec_float :=
  match y with
  | S754_zero _ => Raise ZeroDivisionError
  | _ => OK (SFdiv prec emax x y)
  end.

(** [n / y] for an [int] and a [float]: the [int] is converted first. *)
Definition int_truediv_float (n : Z) (y : spec_float) : res spec_float :=
  (x <- of_int n ;; truediv x y)%res.

(** [int(x)] for a [float]: truncation toward zero. *)
Definition to_int (x : spec_float) : res Z :=
  match x with
  | S754_zero _ => OK 0%Z
  | S754_infinity _ => Raise OverflowError
  | S754_nan => Raise ValueError
  | S754_finite s m e => OK (cond_Zopp s (Z.shiftl (Zpos m) e))
  end.

End PyFloat.

(** ** Frame size extraction: the text processing of [VideoSize] *)

Module Re.

(** The length of the longest prefix of decimal digits. *)
Fixpoint digits_len (s : string) : nat :=
  match s with
  | String c r => if Py.is_digit c then S (digits_len r) else O
  | "" => O
  end.

Fixpoint drop (n : nat) (s : string) : string :=
  match n, s with
  | O, _ => s
  | S n', String _ r => drop n' r
  | S _, "" => ""
  end.

(** The pattern [' \d+x\d+ '] anchored at the first character: the
    length of the match.  Both [\d+] are greedy, and giving back a
    digit never helps, since the character that follows must be
    ['x'], respectively [' ']. *)
Definition match_here (s : string) : option nat :=
  match s with
  | String " " r =>
      let n1 := digits_len r in
      if (n1 =? 0)%nat then None
      else match drop n1 r with
           | String "x" r2 =>
               let n2 := digits_len r2 in
               if (n2 =? 0)%nat then None
               else match drop n2 r2 with
                    | String " " _ => Some (1 + n1 + 1 + n2 + 1)%nat
                    | _ => None
                    end
           | _ => None
           end
  | _ => None
  end.

(** [re.search(' \d+x\d+ ', line)]: the leftmost match, as the pair
    [(search.start(), search.end())]; [pos] is the index of the first
    character of [s] in the line. *)
Fixpoint search_from (pos : nat) (s : string) : option (nat * nat) :=
  match match_here s with
  | Some len => Some (pos, pos + len)%nat
  | None =>
      match s with
      | "" => None
      | String _ r => search_from (S pos) r
      end
  end.

Definition search (line : string) : option (nat * nat) := search_from 0 line.

End Re.

(** [int(s)] on a non-empty run of decimal digits; any other string is
    reported as [ValueError] (the script only converts pieces of a match
    of [\d+x\d+]). *)
Fixpoint digits_value (acc : Z) (s : string) : Z :=
  match s with
  | "" => acc
  | String c r => digits_value (10 * acc + Z.of_nat (nat_of_ascii c - 48)) r
  end.

Definition int_of_str (s : string) : res Z :=
  if (negb (s =? "")) && (Re.digits_len s =? String.length s)%nat
  then OK (digits_value 0 s) else Raise ValueError.

(** [line[a:b]] for [0 <= a <= b]. *)
Definition slice (a b : nat) (line : string) : string :=
  String.substring a (b - a) line.

(** The [for line in ...] loop of [VideoSize] and the [return 0, 0] that
    follows it. *)
Fixpoint scan_lines (lines : list string) : res (Z * Z) :=
  match lines with
  | [] => OK (0, 0)%Z
  | line :: rest =>
      if Py.contains "Video:" line then
        match Re.search line with
        | Some (start, stop) =>
            match Py.split "x" (slice (1 + start) (stop - 1) line) with
            | [w; h] =>
                (w' <- int_of_str w ;; h' <- int_of_str h ;; OK (w', h'))%res
            | _ => Raise ValueError
            end
        | None => scan_lines rest
        end
      else scan_lines rest
  end.

(** [VideoSize] applied to the text ffprobe wrote to its standard error. *)
Definition frame_size (stderr : string) : res (Z * Z) :=
  scan_lines (Py.split Py.LF stderr).

(** ** Window geometry (script lines 166-176) *)

Record layout : Type := {
  win_w : Z;        (* vw after line 171 *)
  win_h : Z;        (* vh after line 172 *)
  x1 : string;
  y1 : string;
  x2 : string;
  y2 : string
}.

(** From the display width [dw] and the frame size [(vw, vh)]: the aspect
    ratio, then the window size and the two origins, in the order the
    script evaluates them. *)
Definition geometry (dw vw vh : Z) : res layout :=
  (aspect <- PyFloat.int_truediv vw vh ;;
   wf <- PyFloat.int_truediv (dw - 20) 2 ;;
   vw' <- PyFloat.to_int wf ;;
   hf <- PyFloat.int_truediv_float vw' aspect ;;
   vh' <- PyFloat.to_int hf ;;
   xf <- PyFloat.int_truediv dw 2 ;;
   xi <- PyFloat.to_int xf ;;
   OK {| win_w := vw'; win_h := vh';
         x1 := "10"; y1 := "35";
         x2 := Py.str (xi + 5); y2 := "35" |})%res.

(** ** The two ffplay command lines (script lines 181-184) *)

Definition size_and_origin (g : layout) (x y : string) : string :=
  " -x " ++ Py.str (win_w g) ++ " -y " ++ Py.str (win_h g)
  ++ " -left " ++ x ++ " -top " ++ y.

Definition cmd1_of (title1 video1 : string) (g : layout) : string :=
  "ffplay -v 0 -window_title " ++ Py.dq ++ title1 ++ Py.dq
  ++ " -i " ++ Py.dq ++ video1 ++ Py.dq
  ++ size_and_origin g (x1 g) (y1 g).

Definition cmd2_of (title2 video2 args : string) (g : layout) : string :=
  "ffplay -v 0 -window_title " ++ Py.dq ++ title2 ++ Py.dq
  ++ " -i " ++ Py.dq ++ video2 ++ Py.dq ++ " " ++ args
  ++ size_and_origin g (x2 g) (y2 g).

(** ** The outside world and the effects of a run *)

(** What the script reads from its environment.  Time is counted in
    tenths of a second since the start of the run; the window controller
    answers depend on it. *)
Record World : Type := {
  argv : list string;                        (* sys.argv *)
  isfile : string -> bool;                   (* os.path.isfile *)
  DisplaySize : Z * Z;                      (* DisplaySize() *)
  ffprobe_stderr : string -> string;         (* stderr of ffprobe -i file *)
  aut_Run : string -> Z;                     (* aut.Run(cmd): a pid, 0 on failure *)
  aut_WinActive : string -> nat -> bool;     (* aut.WinActive(title) at a time *)
  aut_WinGetHandle : string -> string;       (* aut.WinGetHandle(title) *)
  aut_WinExists : string -> nat -> bool;     (* aut.WinExists(handle) at a time *)
  interrupt : nat -> bool                    (* CTRL-C arrives during the final loop *)
}.

Inductive event : Type :=
| Print (text : string)           (* text written to stdout by one [print] *)
| Probe (file : string)           (* ffprobe started on [file] *)
| Run (cmd : string)              (* aut.Run(cmd) *)
| WinActive (title : string)      (* aut.WinActive(title) *)
| WinGetHandle (title : string)   (* aut.WinGetHandle(title) *)
| WinExists (handle : string)     (* aut.WinExists(handle) *)
| Sleep (tenths : nat).           (* time.sleep *)

Record state : Type := {
  clock : nat;                    (* tenths of a second slept so far *)
  trace : list event              (* oldest event first *)
}.

(** How a run ends: the script reaches its last line, or [sys.exit()]
    raises [SystemExit] with no argument, or another exception reaches
    the top level.  [OutOfFuel] is not an ending of the script: it marks
    a model run cut short by its iteration budget. *)
Inductive outcome : Type :=
| Completed
| Exited
| Uncaught (e : exn)
| OutOfFuel.

(** The exit status of the interpreter process. *)
Definition exit_status (o : outcome) : option Z :=
  match o with
  | Completed => Some 0%Z
  | Exited => Some 0%Z          (* SystemExit(None) *)
  | Uncaught _ => Some 1%Z      (* traceback *)
  | OutOfFuel => None
  end.

Inductive step (A : Type) : Type :=
| Next (a : A) (s : state)
| Halt (o : outcome) (s : state).

Arguments Next {A} a s.
Arguments Halt {A} o s.

Definition script (A : Type) : Type := state -> step A.

Definition ret {A : Type} (a : A) : script A := fun s => Next a s.

Definition bind {A B : Type} (c : script A) (k : A -> script B) : script B :=
  fun s => match c s with
           | Next a s' => k a s'
           | Halt o s' => Halt o s'
           end.

Definition halt {A : Type} (o : outcome) : script A := fun s => Halt o s.

Declare Scope script_scope.
Delimit Scope script_scope with script.
Notation "x <- c ;; k" := (bind c (fun x => k))
  (at level 61, c at next level, right associativity) : script_scope.
Notation "c ;; k" := (bind c (fun _ => k))
  (at level 61, right associativity) : script_scope.

Local Open Scope script_scope.

Definition emit (e : event) : script unit :=
  fun s => Next tt {| clock := clock s; trace := trace s ++ [e] |}.

Definition now : script nat := fun s => Next (clock s) s.

(** [print(text)] *)
Definition print (text : string) : script unit := emit (Print (text ++ Py.nl)).

(** [sys.exit()] *)
Definition sys_exit {A : Type} : script A := halt Exited.

(** [time.sleep]: the clock advances. *)
Definition sleep (tenths : nat) : script unit :=
  fun s => Next tt {| clock := clock s + tenths; trace := trace s ++ [Sleep tenths] |}.

(** An expression that may raise, evaluated at the top level. *)
Definition eval {A : Type} (r : res A) : script A :=
  match r with
  | OK a => ret a
  | Raise e => halt (Uncaught e)
  end.

(** [if cond: body] *)
Definition when (cond : bool) (body : script unit) : script unit :=
  if cond then body else ret tt.

Section Script.

Variable w : World.

Definition WinActive_call (title : string) : script bool :=
  emit (WinActive title) ;; t <- now ;; ret (aut_WinActive w title t).

Definition WinExists_call (handle : string) : script bool :=
  emit (WinExists handle) ;; t <- now ;; ret (aut_WinExists w handle t).

Definition WinGetHandle_call (title : string) : script string :=
  emit (WinGetHandle title) ;; ret (aut_WinGetHandle w title).

Definition Run_call (cmd : string) : script Z :=
  emit (Run cmd) ;; ret (aut_Run w cmd).

(** [VideoSize(file)] *)
Definition VideoSize (file : string) : script (Z * Z) :=
  emit (Probe file) ;; eval (frame_size (ffprobe_stderr w file)).

(** The [while] loop of [WaitFor]; [fuel] bounds the iterations of the
    model, [timeout] is the script's counter. *)
Fixpoint WaitFor_loop (fuel : nat) (title : string) (timeout : Z) : script unit :=
  active <- WinActive_call title ;;
  if active then ret tt
  else
    sleep 1 ;;
    let timeout := (timeout - 1)%Z in
    if (timeout =? 0)%Z then print "expired" ;; sys_exit
    else match fuel with
         | O => halt OutOfFuel
         | S fuel' => WaitFor_loop fuel' title timeout
         end.

Definition WaitFor (fuel : nat) (title : string) (timeout : Z) : script unit :=
  let timeout := (timeout * 10)%Z in
  WaitFor_loop fuel title timeout.

(** The final [try: while ...: time.sleep(1) except: pass].  An
    interrupt is swallowed by the bare [except]. *)
Fixpoint lifecycle (fuel : nat) (handle1 handle2 : string) : script unit :=
  e1 <- WinExists_call handle1 ;;
  e2 <- (if e1 then ret true else WinExists_call handle2) ;;
  if e2 then
    t <- now ;;
    if interrupt w t then ret tt
    else
      sleep 10 ;;
      match fuel with
      | O => halt OutOfFuel
      | S fuel' => lifecycle fuel' handle1 handle2
      end
  else ret tt.

End Script.

(** ** The script *)

(** The usage text, as the source file has it between its triple quotes. *)
Definition usage : string :=
"
    SideBySide video1 video2

        Displays two videos side by side for comparison. This is useful to see
        before and after video effects such as colour/contrast manipulation or
        scaling.

        If you want to try some ffmpeg filters before applying them to a complete
        video you can supply ffmpeg parameters ad hoc. To use the same video for
        both panels specify '-same' as the second video. For example, to see the
        effect of a gamma correction you can type:

            sidebyside video.mp4 -same -vf eq=gamma=0.9

        To save you the trouble of remembering ffmpeg filters several shortcuts
        are provided as follows:

            sidebyside video.mp4 -same -gamma 0.9        apply gamma correction
            sidebyside video.mp4 -same -contrast .12     apply contrast correction
            sidebyside video.mp4 -same -grey             convert to greyscale
            sidebyside video.mp4 -same -sepia            convert to sepia
    ".

(** [print('Could not find:', video)] *)
Definition could_not_find (video : string) : string :=
  "Could not find:" ++ " " ++ video.

(** [video2] after the [-same] test of line 130. *)
Definition second_video (video1 video2 : string) : string :=
  if video2 =? "-same" then video1 else video2.

(** The variables the launch part reads. *)
Record plan : Type := {
  title1 : string;
  cmd1 : string;
  title2 : string;
  cmd2 : string
}.

(** Lines 100-184: from the command line to the two command lines.  The
    AutoIt object is created here too; the model takes it as available. *)
Definition prepare (w : World) : script plan :=
  when (List.length (argv w) <? 3)%nat (print usage ;; sys_exit) ;;
  let video1 := nth 1 (argv w) "" in
  let video2 := nth 2 (argv w) "" in
  let video2 := second_video video1 video2 in
  let args := passthrough_args (argv w) in
  when (negb (isfile w video1)) (print (could_not_find video1) ;; sys_exit) ;;
  when (negb (isfile w video2)) (print (could_not_find video2) ;; sys_exit) ;;
  let title1 := "1: " ++ video1 in
  let title2 := "2: " ++ video2 in
  let dw := fst (DisplaySize w) in
  size <- VideoSize w video1 ;;
  g <- eval (geometry dw (fst size) (snd size)) ;;
  ret {| title1 := title1; cmd1 := cmd1_of title1 video1 g;
         title2 := title2; cmd2 := cmd2_of title2 video2 args g |}.

(** Lines 187-207 for one window: print and start the command, wait for
    the window, return its handle string. *)
Definition launch (w : World) (fuel : nat) (cmd title : string) : script string :=
  print (Py.nl ++ cmd) ;;
  p <- Run_call w cmd ;;
  when (p =? 0)%Z (print "Could not start ffplay.exe" ;; sys_exit) ;;
  WaitFor w fuel title 5 ;;
  handle <- WinGetHandle_call w title ;;
  ret ("[HANDLE:" ++ handle ++ "]").

(** The whole script. *)
Definition main (fuel : nat) (w : World) : script unit :=
  p <- prepare w ;;
  handle1 <- launch w fuel (cmd1 p) (title1 p) ;;
  handle2 <- launch w fuel (cmd2 p) (title2 p) ;;
  lifecycle w fuel handle1 handle2.

Definition start : state := {| clock := 0; trace := [] |}.

(** A run from the start of the process: how it ends and what it did. *)
Definition run (fuel : nat) (w : World) : outcome * list event :=
  match main fuel w start with
  | Next _ s => (Completed, trace s)
  | Halt o s => (o, trace s)
  end.

(** Membership tests on traces. *)
Definition is_Run (e : event) : bool :=
  match e with Run _ => true | _ => false end.

Definition is_WinExists (e : event) : bool :=
  match e with WinExists _ => true | _ => false end.

Definition is_Print (e : event) : bool :=
  match e with Print _ => true | _ => false end.

(** The state after some more events, the clock unchanged. *)
Definition log (s : state) (es : list event) : state :=
  {| clock := clock s; trace := trace s ++ es |}.

(** ** Statements about runs *)

(** Fewer than two positional arguments. *)
Definition too_few_arguments (w : World) : Prop :=
  (List.length (argv w) < 3)%nat.

(** The two videos the command line refers to, when there are two
    positional arguments. *)
Definition videos (w : World) : string * string :=
  (nth 1 (argv w) "", second_video (nth 1 (argv w) "") (nth 2 (argv w) "")).

(** One of the referenced video files is not on disk. *)
Definition missing_video (w : World) : Prop :=
  (3 <= List.length (argv w))%nat /\
  (isfile w (fst (videos w)) = false \/ isfile w (snd (videos w)) = false).

(** The run ends with a non-zero exit status. *)
Definition exits_nonzero (o : outcome) : Prop :=
  exists status : Z, exit_status o = Some status /\ status <> 0%Z.

(** A world for examples: one video on disk, a 1920x1080 display, an
    ffprobe that reports 1280x720, windows that become active after two
    tenths of a second and close after three seconds. *)
Definition demo_world (args : list string) : World := {|
  argv := args;
  isfile := fun f => f =? "video1.mp4";
  DisplaySize := (1920, 1080)%Z;
  ffprobe_stderr := fun _ =>
    "  Stream #0:0(und): Video: h264 (High), yuv420p, 1280x720 [SAR 1:1 DAR 16:9], 25 fps";
  aut_Run := fun _ => 4242%Z;
  aut_WinActive := fun _ t => (2 <=? t)%nat;
  aut_WinGetHandle := fun t => "0x000A" ++ t;
  aut_WinExists := fun _ t => (t <? 30)%nat;
  interrupt := fun _ => false
|}.

(** The layout and the plan of [demo_world]: two 950x534 windows. *)
Definition demo_layout : layout :=
  {| win_w := 950; win_h := 534; x1 := "10"; y1 := "35"; x2 := "965"; y2 := "35" |}.

Definition demo_plan (args : string) : plan :=
  {| title1 := "1: video1.mp4";
     cmd1 := cmd1_of "1: video1.mp4" "video1.mp4" demo_layout;
     title2 := "2: video1.mp4";
     cmd2 := cmd2_of "2: video1.mp4" "video1.mp4" args demo_layout |}.

(** [k] unsuccessful polls of [WaitFor]: each asks the controller and
    sleeps a tenth of a second. *)
Fixpoint polls (title : string) (k : nat) : list event :=
  match k with
  | O => []
  | S k' => WinActive title :: Sleep 1 :: polls title k'
  end.

(** The window with this title is never the active one. *)
Definition never_active (w : World) (title : string) : Prop :=
  forall t : nat, aut_WinActive w title t = false.

(** The titles the script gives its two windows. *)
Definition titles (w : World) : string * string :=
  ("1: " ++ fst (videos w), "2: " ++ snd (videos w)).

(** [s'] continues [s] without any [aut.WinExists] call. *)
Definition no_lifecycle_between (s s' : state) : Prop :=
  exists es : list event,
    trace s' = (trace s ++ es)%list /\ existsb is_WinExists es = false.

(** A world whose windows never become active. *)
Definition stuck_world (args : list string) : World := {|
  argv := args;
  isfile := fun f => f =? "video1.mp4";
  DisplaySize := (1920, 1080)%Z;
  ffprobe_stderr := fun _ =>
    "  Stream #0:0(und): Video: h264 (High), yuv420p, 1280x720 [SAR 1:1 DAR 16:9], 25 fps";
  aut_Run := fun _ => 4242%Z;
  aut_WinActive := fun _ _ => false;
  aut_WinGetHandle := fun t => "0x000A" ++ t;
  aut_WinExists := fun _ _ => true;
  interrupt := fun _ => false
|}.

(** [sub] occurs in [line]. *)
Definition mentions (sub line : string) : Prop :=
  exists pre post : string, line = pre ++ sub ++ post.

Fixpoint all_digits (s : string) : bool :=
  match s with
  | "" => true
  | String c r => Py.is_digit c && all_digits r
  end.

(** [line] holds a frame size the way [VideoSize] looks for it: a space,
    a non-empty run of digits, the letter x, a non-empty run of digits,
    a space. *)
Definition size_token (line : string) : Prop :=
  exists pre wd hd post : string,
    line = pre ++ " " ++ wd ++ "x" ++ hd ++ " " ++ post /\
    wd <> "" /\ hd <> "" /\ all_digits wd = true /\ all_digits hd = true.

(** No line of the probe output that mentions [Video:] holds a frame
    size. *)
Definition no_frame_size (stderr : string) : Prop :=
  forall line : string,
    In line (Py.split Py.LF stderr) ->
    mentions "Video:" line -> ~ size_token line.

(** A world whose ffprobe finds no video stream. *)
Definition audio_only_world : World := {|
  argv := ["SideBySide.py"; "song.mp3"; "-same"];
  isfile := fun f => f =? "song.mp3";
  DisplaySize := (1920, 1080)%Z;
  ffprobe_stderr := fun _ =>
    "Input #0, mp3, from 'song.mp3':" ++ Py.nl ++
    "  Stream #0:0: Audio: mp3, 44100 Hz, stereo, fltp, 128 kb/s" ++ Py.nl ++
    "  Stream #0:1: Video: mjpeg, yuvj420p, 300x300, 90k tbr (attached pic)";
  aut_Run := fun _ => 4242%Z;
  aut_WinActive := fun _ _ => true;
  aut_WinGetHandle := fun t => "0x000A" ++ t;
  aut_WinExists := fun _ _ => false;
  interrupt := fun _ => false
|}.

(** ** Statements about the geometry *)

(** The last step of binary64 rounding: the second normalisation of the
    mantissa and the packing into a number (the tail of
    [binary_round_aux]). *)
Definition pack (s : bool) (m e : Z) : spec_float :=
  let '(mrs, e') := shr_fexp 53 1024 m e loc_Exact in
  match shr_m mrs with
  | Z0 => S754_zero s
  | Zpos p => if (e' <=? 1024 - 53)%Z then S754_finite s p e' else S754_infinity s
  | Zneg _ => S754_nan
  end.

(** [floor(width / (vw / vh))] over the rationals, without rounding. *)
Definition exact_height (width vw vh : Z) : Z :=
  Qfloor (inject_Z width / (inject_Z vw / inject_Z vh))%Q.

(** [int(width / (vw / vh))] as Python evaluates it: each division
    rounds to the nearest double, then [int] truncates. *)
Definition double_height (width vw vh : Z) : res Z :=
  (aspect <- PyFloat.int_truediv vw vh ;;
   hf <- PyFloat.int_truediv_float width aspect ;;
   PyFloat.to_int hf)%res.

(** The sizes the proofs cover: integers that a double holds exactly.
    A screen width reported by Tk and a frame size printed by ffprobe
    are far below the bound. *)
Definition exact_in_double (n : Z) : Prop := (0 <= n < 2 ^ 53)%Z.

(** The text both command lines end with, for a window of [width] by
    [height] at [(x, y)]. *)
Definition placement (width height : Z) (x y : string) : string :=
  " -x " ++ Py.str width ++ " -y " ++ Py.str height
  ++ " -left " ++ x ++ " -top " ++ y.

(** What both command lines start with. *)
Definition command_head (title video : string) : string :=
  "ffplay -v 0 -window_title " ++ Py.dq ++ title ++ Py.dq
  ++ " -i " ++ Py.dq ++ video ++ Py.dq.

(** A world with a 1920 pixel wide display and a video of the given
    frame size. *)
Definition sized_world (vw vh : string) : World := {|
  argv := ["SideBySide.py"; "video1.mp4"; "-same"];
  isfile := fun f => f =? "video1.mp4";
  DisplaySize := (1920, 1080)%Z;
  ffprobe_stderr := fun _ =>
    "  Stream #0:0: Video: h264, yuv420p, " ++ vw ++ "x" ++ vh ++ " [SAR 1:1], 25 fps";
  aut_Run := fun _ => 4242%Z;
  aut_WinActive := fun _ _ => true;
  aut_WinGetHandle := fun t => "0x000A" ++ t;
  aut_WinExists := fun _ _ => false;
  interrupt := fun _ => false
|}.

(** The same world started with another command line. *)
Definition set_argv (w : World) (args : list string) : World := {|
  argv := args;
  isfile := isfile w;
  DisplaySize := DisplaySize w;
  ffprobe_stderr := ffprobe_stderr w;
  aut_Run := aut_Run w;
  aut_WinActive := aut_WinActive w;
  aut_WinGetHandle := aut_WinGetHandle w;
  aut_WinExists := aut_WinExists w;
  interrupt := interrupt w
|}.

(** ** Statements about the rest of the script *)

(** Every character of [s] is one of [chars]; [s] begins, respectively
    ends, with one of them. *)
Fixpoint all_in (chars s : string) : bool :=
  match s with
  | "" => true
  | String c r => Py.mem c chars && all_in chars r
  end.

Definition starts_in (chars s : string) : bool :=
  match s with
  | "" => false
  | String c _ => Py.mem c chars
  end.

Fixpoint ends_in (chars s : string) : bool :=
  match s with
  | "" => false
  | String c "" => Py.mem c chars
  | String _ r => ends_in chars r
  end.

(** ['[HANDLE:%s]' % aut.WinGetHandle(title)] *)
Definition handle_of (w : World) (title : string) : string :=
  "[HANDLE:" ++ aut_WinGetHandle w title ++ "]".

(** A world in which ffplay cannot be started. *)
Definition no_ffplay_world : World := {|
  argv := ["SideBySide.py"; "video1.mp4"; "-same"];
  isfile := fun f => f =? "video1.mp4";
  DisplaySize := (1920, 1080)%Z;
  ffprobe_stderr := fun _ =>
    "  Stream #0:0(und): Video: h264 (High), yuv420p, 1280x720 [SAR 1:1 DAR 16:9], 25 fps";
  aut_Run := fun _ => 0%Z;
  aut_WinActive := fun _ _ => false;
  aut_WinGetHandle := fun t => "0x000A" ++ t;
  aut_WinExists := fun _ _ => false;
  interrupt := fun _ => false
|}.

(** * Properties *)

(** ** Running the script monad *)

Lemma bind_Next {A B : Type} (c : script A) (k : A -> script B) s a s' :
  c s = Next a s' -> bind c k s = k a s'.
Proof. unfold bind; intros ->; reflexivity. Qed.

Lemma bind_Halt {A B : Type} (c : script A) (k : A -> script B) s o s' :
  c s = Halt o s' -> bind c k s = Halt o s'.
Proof. unfold bind; intros ->; reflexivity. Qed.

(** ** The primitives on the values CPython gives *)

Example strip_zeros :
  Py.strip "0" "00100" = "1" /\ Py.strip "0" "0" = "" /\ Py.strip "0" ".12" = ".12".
Proof. repeat split. Qed.

Example split_lines :
  Py.split Py.LF ("a" ++ Py.nl ++ "b" ++ Py.nl) = ["a"; "b"; ""]
  /\ Py.split "x" "x1x" = [""; "1"; ""].
Proof. split; reflexivity. Qed.

Example lower_flag : Py.lower "-GrEy" = "-grey".
Proof. reflexivity. Qed.

Example str_ints : Py.str 965 = "965" /\ Py.str 0 = "0" /\ Py.str (-15) = "-15".
Proof. repeat split. Qed.

Example search_ffprobe_line :
  Re.search "  Stream #0:0(und): Video: h264 (High), yuv420p, 1280x720 [SAR 1:1 DAR 16:9], 25 fps"
  = Some (48, 58)%nat
  /\ Re.search " 12x 3x4  007x010 " = Some (4, 9)%nat
  /\ int_of_str "007" = OK 7%Z.
Proof. repeat split. Qed.

Example one_third :
  PyFloat.int_truediv 1 3 = OK (S754_finite false 6004799503160661 (-54)).
Proof. reflexivity. Qed.

Example aspect_1600_768 :
  PyFloat.int_truediv 1600 768 = OK (S754_finite false 4691249611844267 (-51))
  /\ PyFloat.int_truediv_float 950 (S754_finite false 4691249611844267 (-51))
     = OK (S754_finite false 8022036836253695 (-44))
  /\ PyFloat.to_int (S754_finite false 8022036836253695 (-44)) = OK 455%Z.
Proof. repeat split. Qed.

Example int_truncates :
  PyFloat.int_truediv (-7) 2 = OK (S754_finite true 7881299347898368 (-51))
  /\ PyFloat.to_int (S754_finite true 7881299347898368 (-51)) = OK (-3)%Z.
Proof. split; reflexivity. Qed.

Example float_of_large_int :
  PyFloat.of_int (2 ^ 60 + 1) = OK (S754_finite false 4503599627370496 8).
Proof. reflexivity. Qed.

(** ** Strings *)

Lemma append_assoc (a b c : string) : (a ++ b) ++ c = a ++ b ++ c.
Proof. induction a as [|x a IH]; cbn; [reflexivity | now rewrite IH]. Qed.

Lemma length_append (a b : string) :
  String.length (a ++ b) = (String.length a + String.length b)%nat.
Proof. induction a as [|x a IH]; cbn; [reflexivity | now rewrite IH]. Qed.

Lemma append_empty_r (a : string) : a ++ "" = a.
Proof. induction a as [|x a IH]; cbn; [reflexivity | now rewrite IH]. Qed.

(** ** The argument interpreter *)

(** C1, as the code has it: for [video1.mp4 -same -gamma 0.90] the
    passthrough arguments are [-vf eq=gamma=.9]; [strip('0')] removes the
    zero before the point as well as the one at the end. *)
Theorem gamma_090_strips_both_zeros :
  forall prog : string,
    Py.strip "0" "0.90" = ".9" /\
    passthrough_args [prog; "video1.mp4"; "-same"; "-gamma"; "0.90"]
    = "-vf eq=gamma=.9" /\
    In (Run (command_head "2: video1.mp4" "video1.mp4"
             ++ " " ++ "-vf eq=gamma=.9" ++ placement 950 534 "965" "35"))
       (snd (run 3 (demo_world [prog; "video1.mp4"; "-same"; "-gamma"; "0.90"]))).
Proof.
  intros prog. split; [reflexivity|]. split; [reflexivity|].
  vm_compute. do 10 right. left. reflexivity.
Qed.

(** C1 as stated fails: the arguments are not [-vf eq=gamma=0.9]. *)
Lemma gamma_090_keeps_no_leading_zero :
  passthrough_args ["SideBySide.py"; "video1.mp4"; "-same"; "-gamma"; "0.90"]
  <> "-vf eq=gamma=0.9".
Proof. vm_compute. discriminate. Qed.

(** C6: when the first trailing argument is [-grey] or [-sepia] (in any
    letter case), the passthrough arguments are exactly the greyscale,
    respectively sepia, colorchannelmixer expression written out below,
    whatever follows the flag. *)
Theorem grey_sepia_ignore_rest :
  forall (prog video1 video2 flag : string) (rest : list string),
    (Py.lower flag = "-grey" ->
     passthrough_args (prog :: video1 :: video2 :: flag :: rest)
     = "-vf colorchannelmixer=.3:.4:.3:0:.3:.4:.3:0:.3:.4:.3") /\
    (Py.lower flag = "-sepia" ->
     passthrough_args (prog :: video1 :: video2 :: flag :: rest)
     = "-vf colorchannelmixer=.393:.769:.189:0:.349:.686:.168:0:.272:.534:.131").
Proof.
  intros prog video1 video2 flag rest.
  unfold passthrough_args; cbn [List.length Nat.ltb Nat.leb nth].
  split; intros ->; reflexivity.
Qed.

Lemma grey_sepia_ignore_rest_witness :
  passthrough_args
    ["SideBySide.py"; "a.mp4"; "b.mp4"; "-grey"; "-gamma"; "0.5"; "-an"]
  = "-vf colorchannelmixer=.3:.4:.3:0:.3:.4:.3:0:.3:.4:.3" /\
  passthrough_args
    ["SideBySide.py"; "a.mp4"; "-same"; "-sepia"; "-contrast"]
  = "-vf colorchannelmixer=.393:.769:.189:0:.349:.686:.168:0:.272:.534:.131".
Proof.
  split.
  - apply (proj1 (grey_sepia_ignore_rest "SideBySide.py" "a.mp4" "b.mp4" "-grey"
                    ["-gamma"; "0.5"; "-an"])).
    reflexivity.
  - apply (proj2 (grey_sepia_ignore_rest "SideBySide.py" "a.mp4" "-same" "-sepia"
                    ["-contrast"])).
    reflexivity.
Defined.

(** C10: [-contrast] or [-gamma] with no value after it is not rejected:
    the usage guard is not taken, and the passthrough arguments are the
    space-join of the trailing arguments, which is the flag as typed. *)
Theorem valueless_flag_is_verbatim :
  forall prog video1 video2 flag : string,
    Py.lower flag = "-contrast" \/ Py.lower flag = "-gamma" ->
    let argv := [prog; video1; video2; flag] in
    (List.length argv <? 3)%nat = false /\
    passthrough_args argv = Py.join " " (skipn 3 argv) /\
    passthrough_args argv = flag.
Proof.
  intros prog video1 video2 flag H; cbn zeta.
  split; [reflexivity|].
  unfold passthrough_args; cbn [List.length Nat.ltb Nat.leb nth skipn].
  destruct H as [-> | ->]; split; reflexivity.
Qed.

Lemma valueless_flag_is_verbatim_witness :
  passthrough_args ["SideBySide.py"; "a.mp4"; "-same"; "-Gamma"] = "-Gamma" /\
  passthrough_args ["SideBySide.py"; "a.mp4"; "b.mp4"; "-contrast"] = "-contrast".
Proof.
  split.
  - apply (valueless_flag_is_verbatim "SideBySide.py" "a.mp4" "-same" "-Gamma").
    right; reflexivity.
  - apply (valueless_flag_is_verbatim "SideBySide.py" "a.mp4" "b.mp4" "-contrast").
    left; reflexivity.
Defined.

(** ** The checks before the launch *)

Lemma prepare_usage w s :
  (List.length (argv w) < 3)%nat ->
  prepare w s = Halt Exited (log s [Print (usage ++ Py.nl)]).
Proof.
  intros H. apply Nat.ltb_lt in H.
  unfold prepare, when. rewrite H. reflexivity.
Qed.

Lemma prepare_missing_first w s :
  (3 <= List.length (argv w))%nat ->
  isfile w (fst (videos w)) = false ->
  prepare w s
  = Halt Exited (log s [Print (could_not_find (fst (videos w)) ++ Py.nl)]).
Proof.
  intros H H1. apply Nat.ltb_ge in H.
  unfold prepare, when. rewrite H.
  unfold videos in H1; cbn [fst] in H1.
  unfold bind at 1; cbn [ret]. unfold bind at 1. rewrite H1. reflexivity.
Qed.

Lemma prepare_missing_second w s :
  (3 <= List.length (argv w))%nat ->
  isfile w (fst (videos w)) = true ->
  isfile w (snd (videos w)) = false ->
  prepare w s
  = Halt Exited (log s [Print (could_not_find (snd (videos w)) ++ Py.nl)]).
Proof.
  intros H H1 H2. apply Nat.ltb_ge in H.
  unfold prepare, when. rewrite H.
  unfold videos in H1, H2; cbn [fst snd] in H1, H2.
  unfold bind at 1; cbn [ret]. unfold bind at 1. rewrite H1; cbn [negb ret].
  unfold bind at 1. rewrite H2. reflexivity.
Qed.

(** With both files on disk the script probes the first video, computes
    the geometry and builds the two command lines. *)
Lemma prepare_files_present w s :
  (3 <= List.length (argv w))%nat ->
  isfile w (fst (videos w)) = true ->
  isfile w (snd (videos w)) = true ->
  prepare w s
  = let s1 := log s [Probe (fst (videos w))] in
    match frame_size (ffprobe_stderr w (fst (videos w))) with
    | Raise e => Halt (Uncaught e) s1
    | OK size =>
        match geometry (fst (DisplaySize w)) (fst size) (snd size) with
        | Raise e => Halt (Uncaught e) s1
        | OK g =>
            Next {| title1 := "1: " ++ fst (videos w);
                    cmd1 := cmd1_of ("1: " ++ fst (videos w)) (fst (videos w)) g;
                    title2 := "2: " ++ snd (videos w);
                    cmd2 := cmd2_of ("2: " ++ snd (videos w)) (snd (videos w))
                              (passthrough_args (argv w)) g |} s1
        end
    end.
Proof.
  intros H H1 H2. apply Nat.ltb_ge in H.
  unfold prepare, when. rewrite H.
  unfold videos in *; cbn [fst snd] in *.
  unfold bind at 1; cbn [ret]. unfold bind at 1. rewrite H1; cbn [negb ret].
  unfold bind at 1. rewrite H2; cbn [negb ret].
  unfold VideoSize, bind, emit, eval, ret, halt, log.
  destruct (frame_size _) as [size|e]; [|reflexivity].
  destruct (geometry _ _ _) as [g|e]; reflexivity.
Qed.

(** Either failed check ends the whole run with one diagnostic line and
    [sys.exit()]. *)
Lemma run_rejected (fuel : nat) (w : World) :
  too_few_arguments w \/ missing_video w ->
  exists text : string,
    run fuel w = (Exited, [Print (text ++ Py.nl)]) /\
    (text = usage \/ text = could_not_find (fst (videos w))
     \/ text = could_not_find (snd (videos w))).
Proof.
  unfold too_few_arguments, missing_video, run, main.
  intros [H | [H H']].
  - exists usage. rewrite (bind_Halt _ _ _ _ _ (prepare_usage w start H)).
    split; [reflexivity | now left].
  - destruct (isfile w (fst (videos w))) eqn:E1.
    + destruct H' as [H' | H']; [discriminate|].
      exists (could_not_find (snd (videos w))).
      rewrite (bind_Halt _ _ _ _ _ (prepare_missing_second w start H E1 H')).
      split; [reflexivity | now right; right].
    + exists (could_not_find (fst (videos w))).
      rewrite (bind_Halt _ _ _ _ _ (prepare_missing_first w start H E1)).
      split; [reflexivity | now right; left].
Qed.

(** C2, as the code has it: with fewer than two positional arguments, or
    with a referenced video file missing, the run prints one diagnostic
    (the usage text or a could-not-find line) and ends by [sys.exit()],
    whose exit status is 0. *)
Theorem rejected_run_prints_and_exits_zero :
  forall (fuel : nat) (w : World),
    too_few_arguments w \/ missing_video w ->
    exists text : string,
      run fuel w = (Exited, [Print (text ++ Py.nl)]) /\
      (text = usage \/ text = could_not_find (fst (videos w))
       \/ text = could_not_find (snd (videos w))) /\
      exit_status (fst (run fuel w)) = Some 0%Z.
Proof.
  intros fuel w H.
  destruct (run_rejected fuel w H) as (text & Hrun & Htext).
  exists text. rewrite Hrun. repeat split; assumption.
Qed.

Lemma rejected_run_prints_and_exits_zero_witness :
  (exists text : string,
      run 0 (demo_world ["SideBySide.py"; "video1.mp4"])
      = (Exited, [Print (text ++ Py.nl)]) /\
      (text = usage
       \/ text = could_not_find (fst (videos (demo_world ["SideBySide.py"; "video1.mp4"])))
       \/ text = could_not_find (snd (videos (demo_world ["SideBySide.py"; "video1.mp4"])))) /\
      exit_status (fst (run 0 (demo_world ["SideBySide.py"; "video1.mp4"]))) = Some 0%Z) /\
  (exists text : string,
      run 0 (demo_world ["SideBySide.py"; "video1.mp4"; "video2.mp4"])
      = (Exited, [Print (text ++ Py.nl)]) /\
      (text = usage
       \/ text = could_not_find (fst (videos (demo_world ["SideBySide.py"; "video1.mp4"; "video2.mp4"])))
       \/ text = could_not_find (snd (videos (demo_world ["SideBySide.py"; "video1.mp4"; "video2.mp4"])))) /\
      exit_status (fst (run 0 (demo_world ["SideBySide.py"; "video1.mp4"; "video2.mp4"]))) = Some 0%Z).
Proof.
  split.
  - apply (rejected_run_prints_and_exits_zero 0 (demo_world ["SideBySide.py"; "video1.mp4"])).
    left. unfold too_few_arguments. simpl. lia.
  - apply (rejected_run_prints_and_exits_zero 0
             (demo_world ["SideBySide.py"; "video1.mp4"; "video2.mp4"])).
    right. unfold missing_video. simpl. split; [lia | right; reflexivity].
Defined.

(** C2 as stated fails: with no positional argument the run prints the
    usage text and its exit status is 0, not a non-zero value. *)
Lemma usage_run_does_not_exit_nonzero :
  too_few_arguments (demo_world ["SideBySide.py"]) /\
  run 0 (demo_world ["SideBySide.py"]) = (Exited, [Print (usage ++ Py.nl)]) /\
  ~ exits_nonzero (fst (run 0 (demo_world ["SideBySide.py"]))).
Proof.
  split; [unfold too_few_arguments; simpl; lia|].
  split; [reflexivity|].
  intros (status & H & Hnz). vm_compute in H. congruence.
Qed.

(** C8: when either input path is not a file, the run ends by
    [sys.exit()] and its trace has no [aut.Run] call, nor an ffprobe
    start: no process was launched. *)
Theorem missing_file_launches_nothing :
  forall (fuel : nat) (w : World),
    missing_video w ->
    fst (run fuel w) = Exited /\
    existsb is_Run (snd (run fuel w)) = false /\
    forall e, In e (snd (run fuel w)) -> is_Print e = true.
Proof.
  intros fuel w H.
  destruct (run_rejected fuel w (or_intror H)) as (text & -> & _).
  cbn. repeat split. intros e [<- | []]. reflexivity.
Qed.

Lemma missing_file_launches_nothing_witness :
  fst (run 0 (demo_world ["SideBySide.py"; "absent.mp4"; "-same"; "-grey"])) = Exited /\
  existsb is_Run (snd (run 0 (demo_world ["SideBySide.py"; "absent.mp4"; "-same"; "-grey"])))
  = false /\
  forall e, In e (snd (run 0 (demo_world ["SideBySide.py"; "absent.mp4"; "-same"; "-grey"]))) ->
            is_Print e = true.
Proof.
  apply (missing_file_launches_nothing 0
           (demo_world ["SideBySide.py"; "absent.mp4"; "-same"; "-grey"])).
  unfold missing_video. simpl. split; [lia | left; reflexivity].
Defined.

(** ** The command lines *)

(** When [prepare] hands over a plan, both checks passed, the probe and
    the geometry raised nothing, and the plan is built from their
    results. *)
Lemma prepare_Next_inv w s p s' :
  prepare w s = Next p s' ->
  (3 <= List.length (argv w))%nat /\
  isfile w (fst (videos w)) = true /\
  isfile w (snd (videos w)) = true /\
  exists size g,
    frame_size (ffprobe_stderr w (fst (videos w))) = OK size /\
    geometry (fst (DisplaySize w)) (fst size) (snd size) = OK g /\
    p = {| title1 := "1: " ++ fst (videos w);
           cmd1 := cmd1_of ("1: " ++ fst (videos w)) (fst (videos w)) g;
           title2 := "2: " ++ snd (videos w);
           cmd2 := cmd2_of ("2: " ++ snd (videos w)) (snd (videos w))
                     (passthrough_args (argv w)) g |} /\
    s' = log s [Probe (fst (videos w))].
Proof.
  intros H.
  destruct (Nat.lt_ge_cases (List.length (argv w)) 3) as [Hlen | Hlen].
  { rewrite (prepare_usage w s Hlen) in H. discriminate. }
  destruct (isfile w (fst (videos w))) eqn:E1.
  2:{ rewrite (prepare_missing_first w s Hlen E1) in H. discriminate. }
  destruct (isfile w (snd (videos w))) eqn:E2.
  2:{ rewrite (prepare_missing_second w s Hlen E1 E2) in H. discriminate. }
  rewrite (prepare_files_present w s Hlen E1 E2) in H. cbn zeta in H.
  repeat split; try assumption.
  destruct (frame_size _) as [size|e] eqn:Hsize; [|discriminate].
  destruct (geometry _ _ _) as [g|e] eqn:Hgeo; [|discriminate].
  exists size, g. injection H as <- <-. repeat split; assumption.
Qed.

(** C7: with [-same] as second argument, the two command lines name the
    same source after [-i]; the second one carries the passthrough
    arguments, and the first one is the command line of the same run
    without any trailing argument. *)
Theorem same_shares_source_only_second_filtered :
  forall (w : World) (s s' : state) (p : plan)
         (prog video1 : string) (rest : list string),
    argv w = prog :: video1 :: "-same" :: rest ->
    prepare w s = Next p s' ->
    exists g : layout,
      cmd1 p = "ffplay -v 0 -window_title " ++ Py.dq ++ "1: " ++ video1 ++ Py.dq
               ++ " -i " ++ Py.dq ++ video1 ++ Py.dq
               ++ size_and_origin g "10" "35" /\
      cmd2 p = "ffplay -v 0 -window_title " ++ Py.dq ++ "2: " ++ video1 ++ Py.dq
               ++ " -i " ++ Py.dq ++ video1 ++ Py.dq
               ++ " " ++ passthrough_args (argv w)
               ++ size_and_origin g (x2 g) "35" /\
      exists p0 : plan,
        prepare (set_argv w [prog; video1; "-same"]) s = Next p0 s' /\
        cmd1 p0 = cmd1 p.
Proof.
  intros w s s' p prog video1 rest Hargv H.
  destruct (prepare_Next_inv w s p s' H)
    as (Hlen & E1 & E2 & size & g & Hsize & Hgeo & -> & ->).
  assert (Hv : videos w = (video1, video1)).
  { unfold videos. rewrite Hargv. reflexivity. }
  rewrite Hv in *. cbn [fst snd] in *.
  assert (Hg : x1 g = "10" /\ y1 g = "35" /\ y2 g = "35").
  { revert Hgeo. unfold geometry, res_bind.
    repeat match goal with
           | |- context [match ?r with OK _ => _ | Raise _ => _ end] =>
               destruct r; try discriminate
           end.
    intros [= <-]. repeat split. }
  destruct Hg as (Hx1 & Hy1 & Hy2).
  exists g. cbn [cmd1 cmd2]. unfold cmd1_of, cmd2_of.
  rewrite Hx1, Hy1, Hy2.
  split; [reflexivity|]. split; [reflexivity|].
  eexists. split.
  - rewrite prepare_files_present.
    + cbn zeta. unfold videos, set_argv; cbn [argv nth fst snd second_video].
      cbn [ffprobe_stderr DisplaySize]. rewrite Hsize, Hgeo. reflexivity.
    + cbn. lia.
    + exact E1.
    + exact E2.
  - cbn [cmd1]. unfold cmd1_of. rewrite Hx1, Hy1. reflexivity.
Qed.

Lemma same_shares_source_only_second_filtered_witness :
  exists g : layout,
    cmd1 (demo_plan GREY)
    = "ffplay -v 0 -window_title " ++ Py.dq ++ "1: " ++ "video1.mp4" ++ Py.dq
      ++ " -i " ++ Py.dq ++ "video1.mp4" ++ Py.dq ++ size_and_origin g "10" "35" /\
    cmd2 (demo_plan GREY)
    = "ffplay -v 0 -window_title " ++ Py.dq ++ "2: " ++ "video1.mp4" ++ Py.dq
      ++ " -i " ++ Py.dq ++ "video1.mp4" ++ Py.dq ++ " " ++ GREY
      ++ size_and_origin g (x2 g) "35" /\
    exists p0 : plan,
      prepare (set_argv (demo_world ["SideBySide.py"; "video1.mp4"; "-same"; "-grey"])
                 ["SideBySide.py"; "video1.mp4"; "-same"]) start
      = Next p0 (log start [Probe "video1.mp4"]) /\
      cmd1 p0 = cmd1 (demo_plan GREY).
Proof.
  apply (same_shares_source_only_second_filtered
           (demo_world ["SideBySide.py"; "video1.mp4"; "-same"; "-grey"])
           start (log start [Probe "video1.mp4"]) (demo_plan GREY)
           "SideBySide.py" "video1.mp4" ["-grey"]).
  - reflexivity.
  - vm_compute. reflexivity.
Defined.

(** ** The readiness wait *)

Section Waiting.

Variable w : World.

(** With the counter at [n + 1] and a window that never becomes
    active, the loop polls [n + 1] times, prints and exits. *)
Lemma WaitFor_loop_expires title :
  never_active w title ->
  forall (n fuel : nat) (s : state),
    (n <= fuel)%nat ->
    WaitFor_loop w fuel title (Z.of_nat (S n)) s
    = Halt Exited
        {| clock := clock s + S n;
           trace := trace s ++ polls title (S n) ++ [Print ("expired" ++ Py.nl)] |}.
Proof.
  intros Hnever n. induction n as [|n IH]; intros fuel s Hfuel.
  - destruct fuel; cbn; unfold bind, WinActive_call, bind, emit, now, ret, sleep;
      cbn; rewrite Hnever; cbn; rewrite <- !app_assoc; reflexivity.
  - destruct fuel as [|fuel]; [lia|].
    cbn [WaitFor_loop].
    unfold bind at 1. unfold WinActive_call, bind, emit, now, ret. cbn [clock trace].
    rewrite Hnever. unfold sleep at 1. cbn [clock trace].
    replace (Z.of_nat (S (S n)) - 1)%Z with (Z.of_nat (S n)) by lia.
    replace (Z.of_nat (S n) =? 0)%Z with false by (symmetry; apply Z.eqb_neq; lia).
    rewrite IH by lia. cbn [clock trace polls].
    f_equal. f_equal; [lia|].
    rewrite <- !app_assoc. reflexivity.
Qed.

(** Whatever the window does, a wait with a positive counter ends
    within the counter's number of polls: the window was found active,
    or the script exited.  No [aut.WinExists] call is made. *)
Lemma WaitFor_loop_ends title :
  forall (n fuel : nat) (s : state),
    (n <= fuel)%nat ->
    exists s',
      (WaitFor_loop w fuel title (Z.of_nat (S n)) s = Next tt s'
       \/ WaitFor_loop w fuel title (Z.of_nat (S n)) s = Halt Exited s')
      /\ no_lifecycle_between s s'.
Proof.
  intros n. induction n as [|n IH]; intros fuel s Hfuel.
  - destruct fuel; cbn; unfold bind, WinActive_call, bind, emit, now, ret, sleep;
      cbn; destruct (aut_WinActive w title (clock s)); cbn;
      eexists; (split; [(left; reflexivity) || (right; reflexivity)|]);
      eexists; cbn; rewrite <- ?app_assoc; split; reflexivity.
  - destruct fuel as [|fuel]; [lia|].
    cbn [WaitFor_loop].
    unfold bind at 1. unfold WinActive_call, bind, emit, now, ret. cbn [clock trace].
    destruct (aut_WinActive w title (clock s)).
    + eexists; split; [left; reflexivity|]. eexists; cbn; split; reflexivity.
    + unfold sleep at 1. cbn [clock trace].
      replace (Z.of_nat (S (S n)) - 1)%Z with (Z.of_nat (S n)) by lia.
      replace (Z.of_nat (S n) =? 0)%Z with false by (symmetry; apply Z.eqb_neq; lia).
      match goal with |- context [WaitFor_loop w fuel title _ ?s0] =>
        destruct (IH fuel s0 ltac:(lia)) as (s' & Hs' & es & Hes & Hq) end.
      exists s'. split; [exact Hs'|].
      cbn [trace] in Hes. rewrite <- !app_assoc in Hes.
      eexists; split; [exact Hes|]. cbn. exact Hq.
Qed.

End Waiting.

Lemma no_lifecycle_trans s1 s2 s3 :
  no_lifecycle_between s1 s2 -> no_lifecycle_between s2 s3 ->
  no_lifecycle_between s1 s3.
Proof.
  intros (es & H & Hq) (es' & H' & Hq'). exists (es ++ es')%list. split.
  - rewrite H', H. now rewrite app_assoc.
  - rewrite existsb_app, Hq, Hq'. reflexivity.
Qed.

Lemma no_lifecycle_log s es :
  existsb is_WinExists es = false -> no_lifecycle_between s (log s es).
Proof. intros H. exists es. split; [reflexivity | exact H]. Qed.

(** [prepare] ends the run only by [sys.exit()] or by an exception, and
    never asks whether a window exists. *)
Lemma prepare_Halt_inv w s o s' :
  prepare w s = Halt o s' ->
  (o = Exited \/ exists e, o = Uncaught e) /\ no_lifecycle_between s s'.
Proof.
  intros H.
  destruct (Nat.lt_ge_cases (List.length (argv w)) 3) as [Hlen | Hlen].
  { rewrite (prepare_usage w s Hlen) in H. injection H as <- <-.
    split; [now left | now apply no_lifecycle_log]. }
  destruct (isfile w (fst (videos w))) eqn:E1.
  2:{ rewrite (prepare_missing_first w s Hlen E1) in H. injection H as <- <-.
      split; [now left | now apply no_lifecycle_log]. }
  destruct (isfile w (snd (videos w))) eqn:E2.
  2:{ rewrite (prepare_missing_second w s Hlen E1 E2) in H. injection H as <- <-.
      split; [now left | now apply no_lifecycle_log]. }
  rewrite (prepare_files_present w s Hlen E1 E2) in H. cbn zeta in H.
  destruct (frame_size _) as [size|e].
  - destruct (geometry _ _ _) as [g|e]; [discriminate|].
    injection H as <- <-. split; [right; now exists e | now apply no_lifecycle_log].
  - injection H as <- <-. split; [right; now exists e | now apply no_lifecycle_log].
Qed.

(** [WaitFor(title, 5)] on a window that never becomes active. *)
Lemma WaitFor_expires w fuel :
  (49 <= fuel)%nat ->
  forall (title : string) (s : state),
    never_active w title ->
    WaitFor w fuel title 5 s
    = Halt Exited
        {| clock := clock s + 50;
           trace := trace s ++ polls title 50 ++ [Print ("expired" ++ Py.nl)] |}.
Proof.
  intros Hfuel title s Hnever. unfold WaitFor.
  change (5 * 10)%Z with (Z.of_nat (S 49)).
  apply WaitFor_loop_expires; assumption.
Qed.

(** One launch, step by step. *)
Lemma launch_eq w fuel cmd title s :
  launch w fuel cmd title s
  = let s0 := log s [Print ((Py.nl ++ cmd) ++ Py.nl); Run cmd] in
    if (aut_Run w cmd =? 0)%Z
    then Halt Exited (log s0 [Print ("Could not start ffplay.exe" ++ Py.nl)])
    else match WaitFor w fuel title 5 s0 with
         | Next _ s1 =>
             Next ("[HANDLE:" ++ aut_WinGetHandle w title ++ "]")
                  (log s1 [WinGetHandle title])
         | Halt o s1 => Halt o s1
         end.
Proof.
  unfold launch, print, Run_call, when, bind, emit, ret, sys_exit, halt,
    WinGetHandle_call, log.
  cbv beta zeta.
  destruct (aut_Run w cmd =? 0)%Z; cbn [clock trace];
    repeat (rewrite <- app_assoc; cbn [app]); [reflexivity|].
  destruct (WaitFor w fuel title 5 _) as [[] s1 | o s1]; reflexivity.
Qed.

(** A launch with at least 49 spare iterations returns a handle or ends
    the run by [sys.exit()]; it makes no [aut.WinExists] call. *)
Lemma launch_ends w fuel cmd title s :
  (49 <= fuel)%nat ->
  exists s',
    ((exists h, launch w fuel cmd title s = Next h s')
     \/ launch w fuel cmd title s = Halt Exited s')
    /\ no_lifecycle_between s s'.
Proof.
  intros Hfuel. rewrite launch_eq. cbn zeta.
  set (s0 := log s _).
  assert (H0 : no_lifecycle_between s s0) by now apply no_lifecycle_log.
  destruct (aut_Run w cmd =? 0)%Z.
  - eexists. split; [right; reflexivity|].
    eapply no_lifecycle_trans; [exact H0 | now apply no_lifecycle_log].
  - unfold WaitFor. change (5 * 10)%Z with (Z.of_nat (S 49)).
    destruct (WaitFor_loop_ends w title 49 fuel s0 Hfuel)
      as (s1 & [Hs1 | Hs1] & Hbetween); rewrite Hs1.
    + eexists. split; [left; eexists; reflexivity|].
      eapply no_lifecycle_trans; [exact H0|].
      eapply no_lifecycle_trans; [exact Hbetween | now apply no_lifecycle_log].
    + exists s1. split; [right; reflexivity|].
      eapply no_lifecycle_trans; eassumption.
Qed.

(** A launch whose window never becomes active ends the run: the wait
    expires, unless ffplay could not even be started. *)
Lemma launch_never_active w fuel cmd title s :
  (49 <= fuel)%nat ->
  never_active w title ->
  exists s',
    launch w fuel cmd title s = Halt Exited s' /\ no_lifecycle_between s s'.
Proof.
  intros Hfuel Hnever.
  destruct (launch_ends w fuel cmd title s Hfuel) as (s' & [[h Hs'] | Hs'] & Hb);
    [|exists s'; split; assumption].
  exfalso. revert Hs'. rewrite launch_eq. cbn zeta.
  destruct (aut_Run w cmd =? 0)%Z; [discriminate|].
  unfold WaitFor. change (5 * 10)%Z with (Z.of_nat (S 49)).
  rewrite (WaitFor_loop_expires w title Hnever 49 fuel _ Hfuel). discriminate.
Qed.

(** A run in which one of the two windows never becomes active ends
    before the final poll loop. *)
Lemma main_never_active w fuel :
  (49 <= fuel)%nat ->
  never_active w (fst (titles w)) \/ never_active w (snd (titles w)) ->
  exists o s',
    main fuel w start = Halt o s' /\
    (o = Exited \/ exists e, o = Uncaught e) /\
    no_lifecycle_between start s'.
Proof.
  intros Hfuel Hnever. unfold main.
  destruct (prepare w start) as [p s1 | o s1] eqn:Hprep.
  2:{ destruct (prepare_Halt_inv w start o s1 Hprep) as (Ho & Hb).
      exists o, s1. rewrite (bind_Halt _ _ _ _ _ Hprep). repeat split; assumption. }
  rewrite (bind_Next _ _ _ _ _ Hprep).
  destruct (prepare_Next_inv w start p s1 Hprep)
    as (_ & _ & _ & size & g & _ & _ & Hp & Hs1).
  assert (Ht1 : title1 p = fst (titles w)) by (rewrite Hp; reflexivity).
  assert (Ht2 : title2 p = snd (titles w)) by (rewrite Hp; reflexivity).
  assert (Hb1 : no_lifecycle_between start s1)
    by (rewrite Hs1; now apply no_lifecycle_log).
  destruct (launch_ends w fuel (cmd1 p) (title1 p) s1 Hfuel)
    as (s2 & [[h1 Hl1] | Hl1] & Hb2).
  2:{ exists Exited, s2. rewrite (bind_Halt _ _ _ _ _ Hl1).
      split; [reflexivity|]. split; [now left|].
      eapply no_lifecycle_trans; eassumption. }
  destruct Hnever as [Hnever | Hnever].
  { rewrite <- Ht1 in Hnever.
    destruct (launch_never_active w fuel (cmd1 p) (title1 p) s1 Hfuel Hnever)
      as (s2' & Hl1' & _). congruence. }
  rewrite (bind_Next _ _ _ _ _ Hl1).
  rewrite <- Ht2 in Hnever.
  destruct (launch_never_active w fuel (cmd2 p) (title2 p) s2 Hfuel Hnever)
    as (s3 & Hl2 & Hb3).
  exists Exited, s3. rewrite (bind_Halt _ _ _ _ _ Hl2).
  split; [reflexivity|]. split; [now left|].
  eapply no_lifecycle_trans; [exact Hb1|].
  eapply no_lifecycle_trans; eassumption.
Qed.

(** C5: a wait of 5 seconds for a window that never becomes active makes
    exactly 50 polls of a tenth of a second each, prints [expired] and
    ends the whole run by [sys.exit()]; and a run in which one of the two
    windows never becomes active ends without a single [aut.WinExists]
    call, that is, without entering the final poll loop. *)
Theorem never_active_window_expires :
  forall (w : World) (fuel : nat),
    (49 <= fuel)%nat ->
    (forall (title : string) (s : state),
        never_active w title ->
        WaitFor w fuel title 5 s
        = Halt Exited
            {| clock := clock s + 50;
               trace := trace s ++ polls title 50 ++ [Print ("expired" ++ Py.nl)] |}) /\
    (forall (p : plan) (s1 : state),
        prepare w start = Next p s1 ->
        aut_Run w (cmd1 p) <> 0%Z ->
        never_active w (title1 p) ->
        run fuel w
        = (Exited,
           (trace s1 ++ [Print ((Py.nl ++ cmd1 p) ++ Py.nl); Run (cmd1 p)]
              ++ polls (title1 p) 50 ++ [Print ("expired" ++ Py.nl)])%list)) /\
    (never_active w (fst (titles w)) \/ never_active w (snd (titles w)) ->
     (fst (run fuel w) = Exited \/ exists e, fst (run fuel w) = Uncaught e) /\
     existsb is_WinExists (snd (run fuel w)) = false).
Proof.
  intros w fuel Hfuel. split; [|split].
  - intros title s Hnever. now apply WaitFor_expires.
  - intros p s1 Hprep Hrun Hnever. unfold run, main.
    rewrite (bind_Next _ _ _ _ _ Hprep).
    unfold bind at 1. rewrite launch_eq. cbn zeta.
    apply Z.eqb_neq in Hrun. rewrite Hrun.
    rewrite (WaitFor_expires w fuel Hfuel _ _ Hnever).
    cbn [log clock trace]. rewrite <- !app_assoc. reflexivity.
  - intros Hnever.
    destruct (main_never_active w fuel Hfuel Hnever)
      as (o & s' & Hmain & Ho & es & Hes & Hq).
    unfold run. rewrite Hmain. cbn [fst snd].
    split; [exact Ho|]. rewrite Hes. exact Hq.
Qed.

Lemma never_active_window_expires_witness :
  WaitFor (stuck_world ["SideBySide.py"; "video1.mp4"; "-same"]) 49 "1: video1.mp4" 5 start
  = Halt Exited
      {| clock := 50;
         trace := polls "1: video1.mp4" 50 ++ [Print ("expired" ++ Py.nl)] |} /\
  run 49 (stuck_world ["SideBySide.py"; "video1.mp4"; "-same"])
  = (Exited,
     ([Probe "video1.mp4";
       Print ((Py.nl ++ cmd1 (demo_plan "")) ++ Py.nl); Run (cmd1 (demo_plan ""))]
        ++ polls "1: video1.mp4" 50 ++ [Print ("expired" ++ Py.nl)])%list) /\
  existsb is_WinExists (snd (run 49 (stuck_world ["SideBySide.py"; "video1.mp4"; "-same"])))
  = false.
Proof.
  destruct (never_active_window_expires
              (stuck_world ["SideBySide.py"; "video1.mp4"; "-same"]) 49 (le_n 49))
    as (Hwait & Hfirst & Hrun).
  split; [|split].
  - apply (Hwait "1: video1.mp4" start). intros t. reflexivity.
  - apply (Hfirst (demo_plan "") (log start [Probe "video1.mp4"])).
    + vm_compute. reflexivity.
    + vm_compute. discriminate.
    + intros t. reflexivity.
  - apply Hrun. left. intros t. reflexivity.
Defined.

(** ** The frame size search *)

Lemma prefix_app (a b : string) :
  String.prefix a b = true <-> exists post, b = a ++ post.
Proof.
  revert b. induction a as [|c a IH]; intros b.
  - split; [intros _; now exists b | intros _; destruct b; reflexivity].
  - destruct b as [|d b]; cbn.
    + split; [discriminate | intros (post & H); discriminate].
    + destruct (Ascii.ascii_dec c d) as [<- | Hne].
      * rewrite IH. split; intros (post & H); exists post; congruence.
      * split; [discriminate | intros (post & H); congruence].
Qed.

(** [sub in line] is what it says. *)
Lemma contains_mentions (sub line : string) :
  Py.contains sub line = true <-> mentions sub line.
Proof.
  unfold mentions. split.
  - induction line as [|c line IH]; cbn [Py.contains]; rewrite orb_true_iff.
    + intros [H | H]; [|discriminate].
      apply prefix_app in H. destruct H as (post & H). now exists "", post.
    + intros [H | H].
      * apply prefix_app in H. destruct H as (post & H). now exists "", post.
      * destruct (IH H) as (pre & post & ->). now exists (String c pre), post.
  - intros (pre & post & ->). induction pre as [|c pre IH].
    + cbn [append]. assert (H : String.prefix sub (sub ++ post) = true)
        by (apply prefix_app; now exists post).
      destruct (sub ++ post); cbn [Py.contains]; rewrite H; reflexivity.
    + cbn [append Py.contains]. rewrite IH. apply orb_true_r.
Qed.

Lemma digits_len_all (d rest : string) :
  all_digits d = true ->
  Re.digits_len (d ++ rest) = (String.length d + Re.digits_len rest)%nat.
Proof.
  induction d as [|c d IH]; cbn; [reflexivity|].
  intros H. apply andb_true_iff in H. destruct H as [Hc Hd].
  rewrite Hc, IH by assumption. reflexivity.
Qed.

Lemma drop_app (d rest : string) : Re.drop (String.length d) (d ++ rest) = rest.
Proof. induction d as [|c d IH]; cbn; [reflexivity | exact IH]. Qed.

Lemma digits_len_split (s : string) :
  exists d, s = d ++ Re.drop (Re.digits_len s) s /\
            all_digits d = true /\ String.length d = Re.digits_len s.
Proof.
  induction s as [|c s (d & Hs & Hd & Hl)]; cbn.
  - now exists "".
  - destruct (Py.is_digit c) eqn:Hc.
    + exists (String c d). cbn. rewrite Hc, Hd, Hl. rewrite <- Hs. now repeat split.
    + now exists "".
Qed.

(** A match at the first character is a frame size token, and a token
    at the first character is matched. *)
Lemma match_here_shape (s : string) (len : nat) :
  Re.match_here s = Some len ->
  exists wd hd post,
    s = " " ++ wd ++ "x" ++ hd ++ " " ++ post /\
    wd <> "" /\ hd <> "" /\ all_digits wd = true /\ all_digits hd = true /\
    len = (String.length wd + String.length hd + 3)%nat.
Proof.
  unfold Re.match_here.
  destruct s as [|c r]; [discriminate|].
  destruct (Ascii.ascii_dec c " ") as [-> | Hc].
  2:{ destruct c as [[] [] [] [] [] [] [] []]; try discriminate. now contradict Hc. }
  destruct (digits_len_split r) as (wd & Hr & Hwd & Hlw).
  destruct (Re.digits_len r =? 0)%nat eqn:E1; [discriminate|].
  apply Nat.eqb_neq in E1.
  destruct (Re.drop (Re.digits_len r) r) as [|c2 r2] eqn:Hdrop; [discriminate|].
  destruct (Ascii.ascii_dec c2 "x") as [-> | Hc2].
  2:{ destruct c2 as [[] [] [] [] [] [] [] []]; try discriminate. now contradict Hc2. }
  destruct (digits_len_split r2) as (hd & Hr2 & Hhd & Hlh).
  destruct (Re.digits_len r2 =? 0)%nat eqn:E2; [discriminate|].
  apply Nat.eqb_neq in E2.
  destruct (Re.drop (Re.digits_len r2) r2) as [|c3 r3] eqn:Hdrop2; [discriminate|].
  destruct (Ascii.ascii_dec c3 " ") as [-> | Hc3].
  2:{ destruct c3 as [[] [] [] [] [] [] [] []]; try discriminate. now contradict Hc3. }
  intros [= <-]. exists wd, hd, r3. cbn [append].
  split; [rewrite Hr at 1; rewrite Hr2 at 1; reflexivity|].
  repeat split; try assumption.
  - intros ->. cbn in Hlw. congruence.
  - intros ->. cbn in Hlh. congruence.
  - lia.
Qed.

Lemma match_here_sound (s : string) (len : nat) :
  Re.match_here s = Some len ->
  exists wd hd post,
    s = " " ++ wd ++ "x" ++ hd ++ " " ++ post /\
    wd <> "" /\ hd <> "" /\ all_digits wd = true /\ all_digits hd = true.
Proof.
  intros H. destruct (match_here_shape s len H)
    as (wd & hd & post & Hs & Hw & Hh & Hdw & Hdh & _).
  exists wd, hd, post. now repeat split.
Qed.

Lemma match_here_complete (wd hd post : string) :
  wd <> "" -> hd <> "" -> all_digits wd = true -> all_digits hd = true ->
  Re.match_here (" " ++ wd ++ "x" ++ hd ++ " " ++ post) <> None.
Proof.
  intros Hw Hh Hdw Hdh. cbn [append Re.match_here].
  rewrite (digits_len_all wd _ Hdw). cbn [Re.digits_len Py.is_digit].
  change (Py.is_digit "x") with false. cbv iota. rewrite Nat.add_0_r.
  destruct (String.length wd =? 0)%nat eqn:E1.
  { apply Nat.eqb_eq in E1. destruct wd; [now contradict Hw | discriminate]. }
  rewrite drop_app.
  rewrite (digits_len_all hd _ Hdh). cbn [Re.digits_len].
  change (Py.is_digit " ") with false. cbv iota. rewrite Nat.add_0_r.
  destruct (String.length hd =? 0)%nat eqn:E2.
  { apply Nat.eqb_eq in E2. destruct hd; [now contradict Hh | discriminate]. }
  rewrite drop_app. discriminate.
Qed.

(** [re.search] finds a match exactly in the lines that hold a token. *)
Lemma search_from_None_iff (s : string) (pos : nat) :
  Re.search_from pos s = None <-> ~ size_token s.
Proof.
  revert pos. induction s as [|c s IH]; intros pos.
  - cbn. split; [|reflexivity]. intros _ (pre & wd & hd & post & H & _).
    destruct pre; discriminate.
  - cbn [Re.search_from].
    destruct (Re.match_here (String c s)) as [len|] eqn:Hm.
    + split; [discriminate|]. intros H. exfalso. apply H.
      destruct (match_here_sound _ _ Hm) as (wd & hd & post & Hs & Hrest).
      exists "", wd, hd, post. split; [exact Hs | exact Hrest].
    + rewrite IH. split; intros H (pre & wd & hd & post & Hs & Hw & Hh & Hdw & Hdh).
      * destruct pre as [|c' pre].
        -- cbn [append] in Hs. rewrite Hs in Hm.
           now apply (match_here_complete wd hd post Hw Hh Hdw Hdh).
        -- apply H. exists pre, wd, hd, post. cbn [append] in Hs.
           injection Hs as _ Hs. split; [exact Hs|]. now repeat split.
      * apply H. exists (String c pre), wd, hd, post. rewrite Hs.
        split; [reflexivity|]. now repeat split.
Qed.

Lemma search_None_iff (line : string) :
  Re.search line = None <-> ~ size_token line.
Proof. apply search_from_None_iff. Qed.

(** The loop returns the sentinel when no line qualifies. *)
Lemma scan_lines_sentinel (lines : list string) :
  (forall line, In line lines -> mentions "Video:" line -> ~ size_token line) ->
  scan_lines lines = OK (0, 0)%Z.
Proof.
  induction lines as [|line rest IH]; intros H; cbn [scan_lines]; [reflexivity|].
  destruct (Py.contains "Video:" line) eqn:Hc.
  - apply contains_mentions in Hc.
    apply (H line (or_introl eq_refl)) in Hc. apply search_None_iff in Hc.
    rewrite Hc. apply IH. intros l Hl. apply H. now right.
  - apply IH. intros l Hl. apply H. now right.
Qed.

(** A test that decides [no_frame_size] on a given text. *)
Lemma no_frame_size_by_search (stderr : string) :
  forallb (fun line => negb (Py.contains "Video:" line)
                       || match Re.search line with None => true | Some _ => false end)
          (Py.split Py.LF stderr) = true ->
  no_frame_size stderr.
Proof.
  intros H line Hin Hv. rewrite forallb_forall in H. specialize (H line Hin).
  apply contains_mentions in Hv. rewrite Hv in H. cbn in H.
  apply search_None_iff. destruct (Re.search line); [discriminate | reflexivity].
Qed.

(** Where the match lies in the line. *)
Lemma search_from_shape (s : string) (pos a b : nat) :
  Re.search_from pos s = Some (a, b) ->
  exists pre wd hd post,
    s = pre ++ " " ++ wd ++ "x" ++ hd ++ " " ++ post /\
    wd <> "" /\ hd <> "" /\ all_digits wd = true /\ all_digits hd = true /\
    a = (pos + String.length pre)%nat /\
    b = (a + String.length wd + String.length hd + 3)%nat.
Proof.
  revert pos. induction s as [|c s IH]; intros pos; cbn [Re.search_from].
  - cbn. discriminate.
  - destruct (Re.match_here (String c s)) as [len|] eqn:Hm.
    + intros [= <- <-].
      destruct (match_here_shape _ _ Hm) as (wd & hd & post & Hs & Hw & Hh & Hdw & Hdh & ->).
      exists "", wd, hd, post. cbn [append String.length].
      repeat split; try assumption; lia.
    + intros H. destruct (IH _ H) as (pre & wd & hd & post & Hs & Hw & Hh & Hdw & Hdh & Ha & Hb).
      exists (String c pre), wd, hd, post. cbn [append String.length].
      repeat split; try assumption; [now rewrite Hs | lia].
Qed.

Lemma substring_skip (pre s : string) (n : nat) :
  String.substring (String.length pre) n (pre ++ s) = String.substring 0 n s.
Proof. induction pre as [|c pre IH]; cbn; [reflexivity | exact IH]. Qed.

Lemma substring_prefix (a b : string) :
  String.substring 0 (String.length a) (a ++ b) = a.
Proof.
  induction a as [|c a IH]; cbn.
  - destruct b; reflexivity.
  - now rewrite IH.
Qed.

(** The slice the script takes out of a match is the token without its
    two spaces. *)
Lemma slice_of_match (pre wd hd post : string) :
  slice (1 + (0 + String.length pre))
        (0 + String.length pre + String.length wd + String.length hd + 3 - 1)
        (pre ++ " " ++ wd ++ "x" ++ hd ++ " " ++ post)
  = wd ++ "x" ++ hd.
Proof.
  unfold slice.
  replace (pre ++ " " ++ wd ++ "x" ++ hd ++ " " ++ post)
    with ((pre ++ " ") ++ (wd ++ "x" ++ hd) ++ " " ++ post)
    by now rewrite !append_assoc.
  replace (1 + (0 + String.length pre))%nat with (String.length (pre ++ " "))
    by (rewrite length_append; cbn; lia).
  rewrite substring_skip.
  replace (0 + String.length pre + String.length wd + String.length hd + 3 - 1
           - String.length (pre ++ " "))%nat
    with (String.length (wd ++ "x" ++ hd))
    by (rewrite !length_append; cbn; lia).
  apply substring_prefix.
Qed.

Lemma split_digits (d : string) :
  all_digits d = true -> Py.split "x" d = [d].
Proof.
  induction d as [|c d IH]; cbn; [reflexivity|].
  intros H. apply andb_true_iff in H. destruct H as [Hc Hd].
  destruct (Ascii.eqb c "x") eqn:E.
  - apply Ascii.eqb_eq in E. subst c. discriminate.
  - now rewrite IH.
Qed.

(** [split('x')] takes the slice apart into its two runs of digits. *)
Lemma split_token (wd hd : string) :
  all_digits wd = true -> all_digits hd = true ->
  Py.split "x" (wd ++ "x" ++ hd) = [wd; hd].
Proof.
  intros Hw Hh. induction wd as [|c wd IH].
  - cbn. now rewrite split_digits.
  - cbn [all_digits] in Hw. apply andb_true_iff in Hw. destruct Hw as [Hc Hw].
    specialize (IH Hw). cbn [append] in IH |- *. cbn [Py.split].
    destruct (Ascii.eqb c "x") eqn:E.
    + apply Ascii.eqb_eq in E. subst c. discriminate.
    + now rewrite IH.
Qed.

Lemma int_of_str_digits (d : string) :
  d <> "" -> all_digits d = true -> int_of_str d = OK (digits_value 0 d).
Proof.
  intros Hne Hd. unfold int_of_str.
  assert (Hlen : Re.digits_len d = String.length d).
  { pose proof (digits_len_all d "" Hd) as H.
    rewrite append_empty_r in H. cbn in H. lia. }
  rewrite Hlen, Nat.eqb_refl.
  destruct d; [now contradict Hne | reflexivity].
Qed.

(** [VideoSize] never raises: a match always splits into two runs of
    digits that [int] accepts. *)
Lemma scan_lines_total (lines : list string) :
  exists size, scan_lines lines = OK size.
Proof.
  induction lines as [|line rest IH]; cbn [scan_lines]; [now eexists|].
  destruct (Py.contains "Video:" line); [|exact IH].
  destruct (Re.search line) as [[a b]|] eqn:Hs; [|exact IH].
  destruct (search_from_shape _ _ _ _ Hs)
    as (pre & wd & hd & post & -> & Hw & Hh & Hdw & Hdh & -> & ->).
  rewrite slice_of_match, (split_token wd hd Hdw Hdh).
  rewrite (int_of_str_digits wd Hw Hdw), (int_of_str_digits hd Hh Hdh).
  cbn [res_bind]. now eexists.
Qed.

Lemma frame_size_total (stderr : string) :
  exists size, frame_size stderr = OK size.
Proof. apply scan_lines_total. Qed.

(** C3: when no line of the probe output that mentions [Video:] holds a
    space-delimited [WxH] token, [VideoSize] returns [(0, 0)]; the aspect
    ratio [vw / vh] then divides by zero, and a run that reaches the
    probe ends there with an uncaught [ZeroDivisionError]. *)
Theorem no_frame_size_gives_sentinel_and_zero_division :
  forall stderr : string,
    no_frame_size stderr ->
    frame_size stderr = OK (0, 0)%Z /\
    (forall dw : Z, geometry dw 0 0 = Raise ZeroDivisionError) /\
    (forall (w : World) (fuel : nat),
        ffprobe_stderr w (fst (videos w)) = stderr ->
        (3 <= List.length (argv w))%nat ->
        isfile w (fst (videos w)) = true ->
        isfile w (snd (videos w)) = true ->
        run fuel w = (Uncaught ZeroDivisionError, [Probe (fst (videos w))])).
Proof.
  intros stderr H.
  assert (Hsize : frame_size stderr = OK (0, 0)%Z)
    by (apply scan_lines_sentinel; exact H).
  split; [exact Hsize|]. split; [reflexivity|].
  intros w fuel Hw Hlen E1 E2. unfold run, main.
  assert (Hprep : prepare w start
                  = Halt (Uncaught ZeroDivisionError) (log start [Probe (fst (videos w))])).
  { rewrite (prepare_files_present w start Hlen E1 E2). cbn zeta.
    rewrite Hw, Hsize. reflexivity. }
  rewrite (bind_Halt _ _ _ _ _ Hprep). reflexivity.
Qed.

Lemma no_frame_size_gives_sentinel_and_zero_division_witness :
  frame_size (ffprobe_stderr audio_only_world "song.mp3") = OK (0, 0)%Z /\
  run 0 audio_only_world = (Uncaught ZeroDivisionError, [Probe "song.mp3"]).
Proof.
  destruct (no_frame_size_gives_sentinel_and_zero_division
              (ffprobe_stderr audio_only_world "song.mp3"))
    as (Hsize & _ & Hrun).
  - apply no_frame_size_by_search. vm_compute. reflexivity.
  - split; [exact Hsize|].
    apply (Hrun audio_only_world 0).
    + reflexivity.
    + simpl. lia.
    + reflexivity.
    + reflexivity.
Defined.

(** ** Binary64 rounding

    Facts about [SpecFloat] at precision 53: a mantissa of 53 or 54 bits
    rounds to a normal number, the quotient of two numbers of at most 53
    bits has such a mantissa, and halving an integer below 2^53 is
    exact. *)

Section Binary64.

Local Open Scope Z_scope.

Lemma digits2_pos_size p : digits2_pos p = Pos.size p.
Proof. induction p; cbn; congruence. Qed.

Lemma Zdigits2_log2 p : Zdigits2 (Zpos p) = Z.log2 (Zpos p) + 1.
Proof.
  cbn [Zdigits2]. rewrite digits2_pos_size.
  destruct p; cbn [Z.log2 Pos.size]; lia.
Qed.

Lemma Zdigits2_unique m d :
  0 < d -> 2 ^ (d - 1) <= m < 2 ^ d -> Zdigits2 m = d.
Proof.
  intros Hd Hm.
  assert (0 < m) by (pose proof (Z.pow_pos_nonneg 2 (d - 1)); lia).
  destruct m as [|p|p]; try lia.
  rewrite Zdigits2_log2.
  rewrite (Z.log2_unique (Zpos p) (d - 1)); [lia | lia |].
  replace (Z.succ (d - 1)) with d by lia. exact Hm.
Qed.

Lemma Zdigits2_bounds m :
  0 < m -> 0 < Zdigits2 m /\ 2 ^ (Zdigits2 m - 1) <= m < 2 ^ Zdigits2 m.
Proof.
  intros Hm. destruct m as [|p|p]; try lia.
  rewrite Zdigits2_log2.
  pose proof (Z.log2_spec (Zpos p) Hm) as H.
  pose proof (Z.log2_nonneg (Zpos p)).
  replace (Z.log2 (Zpos p) + 1 - 1) with (Z.log2 (Zpos p)) by lia.
  replace (Z.log2 (Zpos p) + 1) with (Z.succ (Z.log2 (Zpos p))) by lia.
  split; [lia | exact H].
Qed.

Lemma fexp64 e : fexp 53 1024 e = Z.max (e - 53) (-1074).
Proof. reflexivity. Qed.

Lemma shr_fexp_keep m e l :
  2 ^ 52 <= m < 2 ^ 53 -> -1074 <= e ->
  shr_fexp 53 1024 m e l = (shr_record_of_loc m l, e).
Proof.
  intros Hm He. unfold shr_fexp.
  rewrite (Zdigits2_unique m 53) by (cbn; lia). rewrite fexp64.
  replace (Z.max (53 + e - 53) (-1074) - e) with 0 by lia. reflexivity.
Qed.

Lemma shr_fexp_once m e l :
  2 ^ 53 <= m < 2 ^ 54 -> -1075 <= e ->
  shr_fexp 53 1024 m e l = (shr_1 (shr_record_of_loc m l), e + 1).
Proof.
  intros Hm He. unfold shr_fexp.
  rewrite (Zdigits2_unique m 54) by (cbn; lia). rewrite fexp64.
  replace (Z.max (54 + e - 53) (-1074) - e) with 1 by lia. reflexivity.
Qed.

Lemma shr_1_m mrs : 0 <= shr_m mrs -> shr_m (shr_1 mrs) = shr_m mrs / 2.
Proof.
  destruct mrs as [m r s]. cbn [shr_m]. intros Hm.
  destruct m as [|[p|p|]|p]; cbn [shr_1 shr_m].
  - reflexivity.
  - rewrite Pos2Z.inj_xI. apply (Z.div_unique _ 2 _ 1); lia.
  - rewrite Pos2Z.inj_xO. apply (Z.div_unique _ 2 _ 0); lia.
  - reflexivity.
  - lia.
Qed.

Lemma shr_m_of_loc m l : shr_m (shr_record_of_loc m l) = m.
Proof. destruct l as [|[]]; reflexivity. Qed.

Lemma round_nearest_even_range m l :
  m <= round_nearest_even m l <= m + 1.
Proof.
  destruct l as [|[]]; cbn [round_nearest_even]; try lia.
  destruct (Z.even m); lia.
Qed.

Lemma binary_round_aux_pack s m e l :
  binary_round_aux 53 1024 s m e l
  = let '(mrs, e') := shr_fexp 53 1024 m e l in
    pack s (round_nearest_even (shr_m mrs) (loc_of_shr_record mrs)) e'.
Proof. unfold binary_round_aux, pack. destruct (shr_fexp 53 1024 m e l). reflexivity. Qed.

Lemma pack_normal s m e :
  2 ^ 52 <= m < 2 ^ 53 -> -1074 <= e <= 971 ->
  pack s m e = S754_finite s (Z.to_pos m) e.
Proof.
  intros Hm He. unfold pack. rewrite shr_fexp_keep by lia.
  cbn [shr_record_of_loc shr_m].
  destruct m as [|p|p]; try (cbn in Hm; lia).
  replace (e <=? 1024 - 53) with true by (symmetry; apply Z.leb_le; lia).
  reflexivity.
Qed.

Lemma pack_carry s e :
  -1075 <= e <= 970 ->
  pack s (2 ^ 53) e = S754_finite s (Z.to_pos (2 ^ 52)) (e + 1).
Proof.
  intros He. unfold pack. rewrite shr_fexp_once by (cbn; lia).
  cbn [shr_record_of_loc]. change (shr_1 _) with {| shr_m := 2 ^ 52; shr_r := false; shr_s := false |}.
  cbn [shr_m]. change (2 ^ 52) with (Zpos (Z.to_pos (2 ^ 52))) at 1. cbv iota.
  replace (e + 1 <=? 1024 - 53) with true by (symmetry; apply Z.leb_le; lia).
  reflexivity.
Qed.

Lemma pack_finite s m e :
  2 ^ 52 <= m <= 2 ^ 53 -> -1074 <= e <= 970 ->
  exists m' e', pack s m e = S754_finite s m' e'
                /\ 2 ^ 52 <= Zpos m' < 2 ^ 53 /\ e <= e' <= e + 1.
Proof.
  intros Hm He. destruct (Z.eq_dec m (2 ^ 53)) as [-> | Hne].
  - rewrite pack_carry by lia. eexists _, _. split; [reflexivity|]. cbn. lia.
  - rewrite pack_normal by lia. eexists _, _. split; [reflexivity|].
    rewrite Z2Pos.id by (cbn in Hm; lia). lia.
Qed.

(** Rounding a mantissa of 53 or 54 bits gives a normal number. *)
Lemma binary_round_aux_finite s m e l :
  2 ^ 52 <= m < 2 ^ 54 -> -1074 <= e <= 969 ->
  exists m' e', binary_round_aux 53 1024 s m e l = S754_finite s m' e'
                /\ 2 ^ 52 <= Zpos m' < 2 ^ 53 /\ e <= e' <= e + 2.
Proof.
  intros Hm He. rewrite binary_round_aux_pack.
  destruct (Z_lt_le_dec m (2 ^ 53)) as [Hlt | Hge].
  - rewrite shr_fexp_keep by lia. cbv beta iota. rewrite shr_m_of_loc.
    pose proof (round_nearest_even_range m
                  (loc_of_shr_record (shr_record_of_loc m l))) as Hr.
    destruct (pack_finite s (round_nearest_even m
                               (loc_of_shr_record (shr_record_of_loc m l)))
                e ltac:(lia) ltac:(lia))
      as (m' & e' & Hp & Hm' & He').
    exists m', e'. split; [exact Hp|]. lia.
  - rewrite shr_fexp_once by lia.
    set (mrs := shr_1 (shr_record_of_loc m l)).
    assert (Hs : shr_m mrs = m / 2)
      by (unfold mrs; rewrite shr_1_m; rewrite shr_m_of_loc; [reflexivity | lia]).
    pose proof (round_nearest_even_range (shr_m mrs) (loc_of_shr_record mrs)) as Hr.
    assert (2 ^ 52 <= m / 2 < 2 ^ 53).
    { split; [apply Z.div_le_lower_bound | apply Z.div_lt_upper_bound]; cbn in *; lia. }
    destruct (pack_finite s (round_nearest_even (shr_m mrs) (loc_of_shr_record mrs))
                (e + 1) ltac:(lia) ltac:(lia))
      as (m' & e' & Hp & Hm' & He').
    exists m', e'. split; [exact Hp|]. lia.
Qed.

Lemma binary_round_aux_exact53 s m e :
  2 ^ 52 <= m < 2 ^ 53 -> -1074 <= e <= 971 ->
  binary_round_aux 53 1024 s m e loc_Exact = S754_finite s (Z.to_pos m) e.
Proof.
  intros Hm He. rewrite binary_round_aux_pack, shr_fexp_keep by lia.
  cbn [shr_record_of_loc shr_m loc_of_shr_record round_nearest_even].
  apply pack_normal; lia.
Qed.

Lemma binary_round_aux_exact54 s m e :
  2 ^ 53 <= m < 2 ^ 54 -> Z.even m = true -> -1075 <= e <= 970 ->
  binary_round_aux 53 1024 s m e loc_Exact = S754_finite s (Z.to_pos (m / 2)) (e + 1).
Proof.
  intros Hm Hev He. rewrite binary_round_aux_pack, shr_fexp_once by lia.
  cbn [shr_record_of_loc].
  assert (Hs : shr_1 {| shr_m := m; shr_r := false; shr_s := false |}
               = {| shr_m := m / 2; shr_r := false; shr_s := false |}).
  { destruct m as [|[p|p|]|p]; try (cbn in Hm; lia); try discriminate.
    cbn [shr_1 orb]. f_equal.
    rewrite Pos2Z.inj_xO. apply (Z.div_unique _ 2 _ 0); lia. }
  rewrite Hs. cbn [shr_m loc_of_shr_record round_nearest_even].
  apply pack_normal; [|lia].
  split; [apply Z.div_le_lower_bound | apply Z.div_lt_upper_bound]; cbn in *; lia.
Qed.

Lemma div_eucl_div_mod a b : Z.div_eucl a b = (a / b, a mod b).
Proof. unfold Z.div, Z.modulo. destruct (Z.div_eucl a b). reflexivity. Qed.

(** The quotient and the exponent [SFdiv] hands to the rounding. *)
Lemma SFdiv_core_eq (mx my : positive) (ex ey : Z) :
  let dx := Zdigits2 (Zpos mx) in
  let dy := Zdigits2 (Zpos my) in
  dx <= 53 ->
  -1074 <= ex - ey + dx - dy - 53 ->
  SFdiv_core_binary 53 1024 (Zpos mx) ex (Zpos my) ey
  = ((Zpos mx * 2 ^ (53 + dy - dx)) / Zpos my,
     ex - ey + dx - dy - 53,
     new_location (Zpos my) ((Zpos mx * 2 ^ (53 + dy - dx)) mod Zpos my)).
Proof.
  intros dx dy Hdx He.
  assert (Hdy : 0 < dy) by (apply Zdigits2_bounds; lia).
  unfold SFdiv_core_binary. fold dx dy. rewrite fexp64.
  replace (Z.min (Z.max (dx + ex - (dy + ey) - 53) (-1074)) (ex - ey))
    with (ex - ey + dx - dy - 53) by lia.
  replace (ex - ey - (ex - ey + dx - dy - 53)) with (53 + dy - dx) by lia.
  destruct (53 + dy - dx) as [|s|s] eqn:Hs; try lia.
  rewrite Z.shiftl_mul_pow2 by lia. rewrite div_eucl_div_mod. reflexivity.
Qed.

Lemma quotient_bounds (a b dx dy : Z) :
  0 < dx -> 0 < dy -> dx <= 53 ->
  2 ^ (dx - 1) <= a < 2 ^ dx ->
  2 ^ (dy - 1) <= b < 2 ^ dy ->
  2 ^ 52 <= (a * 2 ^ (53 + dy - dx)) / b < 2 ^ 54.
Proof.
  intros Hdx Hdy Hle Ha Hb.
  assert (Hb0 : 0 < b) by (pose proof (Z.pow_pos_nonneg 2 (dy - 1)); lia).
  assert (Hs : 0 < 2 ^ (53 + dy - dx)) by (apply Z.pow_pos_nonneg; lia).
  assert (E1 : 2 ^ (dx - 1) * 2 ^ (53 + dy - dx) = 2 ^ 52 * 2 ^ dy).
  { rewrite <- !Z.pow_add_r by lia. f_equal. lia. }
  assert (E2 : 2 ^ dx * 2 ^ (53 + dy - dx) = 2 ^ 54 * 2 ^ (dy - 1)).
  { rewrite <- !Z.pow_add_r by lia. f_equal. lia. }
  split.
  - apply Z.div_le_lower_bound; [lia|].
    transitivity (2 ^ 52 * 2 ^ dy); [|rewrite <- E1; nia]. nia.
  - apply Z.div_lt_upper_bound; [lia|].
    apply Z.lt_le_trans with (2 ^ dx * 2 ^ (53 + dy - dx)); [nia|].
    rewrite E2. nia.
Qed.

(** The quotient of two finite numbers whose exponents are far from the
    limits is a normal number. *)
Lemma SFdiv_finite (sx sy : bool) (mx my : positive) (ex ey : Z) :
  let dx := Zdigits2 (Zpos mx) in
  let dy := Zdigits2 (Zpos my) in
  dx <= 53 ->
  -1021 <= ex - ey + dx - dy <= 1022 ->
  exists m e,
    SFdiv 53 1024 (S754_finite sx mx ex) (S754_finite sy my ey)
    = S754_finite (xorb sx sy) m e
    /\ 2 ^ 52 <= Zpos m < 2 ^ 53
    /\ ex - ey + dx - dy - 53 <= e <= ex - ey + dx - dy - 51.
Proof.
  intros dx dy Hdx He. cbn [SFdiv].
  rewrite SFdiv_core_eq by (fold dx dy; lia). fold dx dy.
  destruct (Zdigits2_bounds (Zpos mx) ltac:(lia)) as (Hx0 & Hx).
  destruct (Zdigits2_bounds (Zpos my) ltac:(lia)) as (Hy0 & Hy).
  fold dx in Hx0, Hx. fold dy in Hy0, Hy.
  pose proof (quotient_bounds _ _ dx dy Hx0 Hy0 Hdx Hx Hy) as Hq.
  destruct (binary_round_aux_finite (xorb sx sy) _ (ex - ey + dx - dy - 53)
              (new_location (Zpos my) ((Zpos mx * 2 ^ (53 + dy - dx)) mod Zpos my))
              Hq ltac:(lia)) as (m & e & Hr & Hm & He').
  exists m, e. split; [exact Hr|]. lia.
Qed.

Lemma Zdigits2_le_53 n : 0 < n < 2 ^ 53 -> 0 < Zdigits2 n <= 53.
Proof.
  intros Hn. destruct (Zdigits2_bounds n ltac:(lia)) as (H0 & Hlo & Hhi).
  split; [exact H0|].
  destruct (Z_le_gt_dec (Zdigits2 n) 53) as [H | H]; [exact H|].
  exfalso. assert (2 ^ 53 <= 2 ^ (Zdigits2 n - 1)) by (apply Z.pow_le_mono_r; lia). lia.
Qed.

(** [a / b] on positive ints below 2^53 is a positive normal double. *)
Lemma int_truediv_pos (a b : Z) :
  0 < a < 2 ^ 53 -> 0 < b < 2 ^ 53 ->
  exists m e,
    PyFloat.int_truediv a b = OK (S754_finite false m e)
    /\ 2 ^ 52 <= Zpos m < 2 ^ 53 /\ -105 <= e <= 1.
Proof.
  intros Ha Hb.
  destruct a as [|p|p]; try lia. destruct b as [|q|q]; try lia.
  pose proof (Zdigits2_le_53 _ Ha) as Hda. pose proof (Zdigits2_le_53 _ Hb) as Hdb.
  destruct (SFdiv_finite false false p q 0 0 ltac:(lia) ltac:(lia))
    as (m & e & Hdiv & Hm & He).
  exists m, e. unfold PyFloat.int_truediv, PyFloat.is_neg, PyFloat.prec, PyFloat.emax.
  cbn [Z.ltb Z.compare Z.abs Z.to_pos]. rewrite Hdiv. cbn [xorb].
  split; [reflexivity|]. lia.
Qed.

(** Halving is exact: [int(n / 2)] is the integer quotient. *)
Lemma int_truediv_2 (n : Z) :
  0 <= n < 2 ^ 53 ->
  exists f, PyFloat.int_truediv n 2 = OK f /\ PyFloat.to_int f = OK (n / 2).
Proof.
  intros Hn. destruct n as [|p|p]; try lia.
  { exists (S754_zero false). split; reflexivity. }
  set (d := Zdigits2 (Zpos p)).
  pose proof (Zdigits2_le_53 (Zpos p) ltac:(lia)) as Hd. fold d in Hd.
  destruct (Zdigits2_bounds (Zpos p) ltac:(lia)) as (_ & Hp). fold d in Hp.
  assert (Hk : 0 < 2 ^ (53 - d)) by (apply Z.pow_pos_nonneg; lia).
  assert (Hm : 2 ^ 52 <= Zpos p * 2 ^ (53 - d) < 2 ^ 53).
  { assert (E1 : 2 ^ (d - 1) * 2 ^ (53 - d) = 2 ^ 52)
      by (rewrite <- Z.pow_add_r by lia; f_equal; lia).
    assert (E2 : 2 ^ d * 2 ^ (53 - d) = 2 ^ 53)
      by (rewrite <- Z.pow_add_r by lia; f_equal; lia).
    nia. }
  exists (S754_finite false (Z.to_pos (Zpos p * 2 ^ (53 - d))) (d - 54)).
  split.
  - unfold PyFloat.int_truediv, PyFloat.is_neg, PyFloat.prec, PyFloat.emax.
    cbn [Z.ltb Z.compare Z.abs Z.to_pos SFdiv].
    rewrite SFdiv_core_eq by (fold d; change (Zdigits2 2) with 2; lia).
    fold d. change (Zdigits2 2) with 2.
    replace (53 + 2 - d) with (1 + (1 + (53 - d))) by lia.
    rewrite !Z.pow_add_r by lia. change (2 ^ 1) with 2.
    replace (Zpos p * (2 * (2 * 2 ^ (53 - d)))) with ((Zpos p * (2 * 2 ^ (53 - d))) * 2) by ring.
    rewrite Z.div_mul by discriminate. rewrite Z.mod_mul by discriminate.
    change (new_location 2 0) with loc_Exact. cbn [xorb].
    rewrite binary_round_aux_exact54.
    + replace (Zpos p * (2 * 2 ^ (53 - d))) with ((Zpos p * 2 ^ (53 - d)) * 2) by ring.
      rewrite Z.div_mul by lia. do 2 f_equal. lia.
    + lia.
    + replace (Zpos p * (2 * 2 ^ (53 - d))) with (2 * (Zpos p * 2 ^ (53 - d))) by ring.
      rewrite Z.even_mul. reflexivity.
    + lia.
  - cbn [PyFloat.to_int cond_Zopp]. f_equal.
    rewrite Z2Pos.id by lia.
    rewrite Z.shiftl_div_pow2 by lia.
    replace (- (d - 54)) with (1 + (53 - d)) by lia.
    rewrite Z.pow_add_r by lia. change (2 ^ 1) with 2.
    rewrite Z.div_mul_cancel_r by lia. reflexivity.
Qed.

Lemma pos_iter_xO (p k : positive) : Zpos (Pos.iter xO p k) = Zpos p * 2 ^ Zpos k.
Proof.
  change (Pos.iter xO p k) with (shift_pos k p).
  rewrite shift_pos_correct, Zpower_pos_nat, Zpower_nat_Z, positive_nat_Z. lia.
Qed.

(** [float(n)] is exact for a positive int below 2^53. *)
Lemma of_int_pos (n : Z) :
  0 < n < 2 ^ 53 ->
  exists m e,
    PyFloat.of_int n = OK (S754_finite false m e)
    /\ 2 ^ 52 <= Zpos m < 2 ^ 53 /\ -52 <= e <= 0.
Proof.
  intros Hn. destruct n as [|p|p]; try lia.
  set (d := Zdigits2 (Zpos p)).
  pose proof (Zdigits2_le_53 (Zpos p) ltac:(lia)) as Hd. fold d in Hd.
  destruct (Zdigits2_bounds (Zpos p) ltac:(lia)) as (_ & Hp). fold d in Hp.
  unfold PyFloat.of_int, PyFloat.prec, PyFloat.emax.
  cbn [binary_normalize]. unfold binary_round.
  change (Zpos (digits2_pos p)) with d. rewrite fexp64.
  replace (Z.max (d + 0 - 53) (-1074)) with (d - 53) by lia.
  unfold shl_align. replace (d - 53 - 0) with (d - 53) by lia.
  destruct (d - 53) as [|k|k] eqn:Hk; try lia.
  - assert (d = 53) by lia.
    rewrite binary_round_aux_exact53 by (replace (2 ^ 52) with (2 ^ (d - 1)) by (f_equal; lia);
                                         replace (2 ^ 53) with (2 ^ d) by (f_equal; lia); lia).
    eexists _, _. split; [reflexivity|].
    replace (2 ^ 52) with (2 ^ (d - 1)) by (f_equal; lia).
    replace (2 ^ 53) with (2 ^ d) by (f_equal; lia). cbn [Z.to_pos]. lia.
  - assert (Hm : 2 ^ 52 <= Zpos (Pos.iter xO p k) < 2 ^ 53).
    { rewrite pos_iter_xO.
      assert (Hkk : Zpos k = 53 - d) by lia. rewrite Hkk.
      assert (0 < 2 ^ (53 - d)) by (apply Z.pow_pos_nonneg; lia).
      assert (E1 : 2 ^ (d - 1) * 2 ^ (53 - d) = 2 ^ 52)
        by (rewrite <- Z.pow_add_r by lia; f_equal; lia).
      assert (E2 : 2 ^ d * 2 ^ (53 - d) = 2 ^ 53)
        by (rewrite <- Z.pow_add_r by lia; f_equal; lia).
      nia. }
    rewrite binary_round_aux_exact53 by lia.
    eexists _, _. split; [reflexivity|]. cbn [Z.to_pos]. lia.
Qed.

(** [n / y] for a non-negative int below 2^53 and a positive normal
    double of moderate exponent: the result converts to an int. *)
Lemma int_truediv_float_defined (n : Z) (my : positive) (ey : Z) :
  0 <= n < 2 ^ 53 ->
  2 ^ 52 <= Zpos my < 2 ^ 53 -> -105 <= ey <= 1 ->
  exists hf h,
    PyFloat.int_truediv_float n (S754_finite false my ey) = OK hf
    /\ PyFloat.to_int hf = OK h.
Proof.
  intros Hn Hmy Hey. unfold PyFloat.int_truediv_float.
  destruct (Z.eq_dec n 0) as [-> | Hn0].
  - eexists _, _. split; reflexivity.
  - destruct (of_int_pos n ltac:(lia)) as (mx & ex & Hx & Hmx & Hex).
    rewrite Hx. cbn [res_bind PyFloat.truediv].
    destruct (SFdiv_finite false false mx my ex ey) as (m & e & Hdiv & Hm & He).
    + rewrite (Zdigits2_unique (Zpos mx) 53) by lia. lia.
    + rewrite (Zdigits2_unique (Zpos mx) 53), (Zdigits2_unique (Zpos my) 53) by lia. lia.
    + unfold PyFloat.prec, PyFloat.emax. rewrite Hdiv.
      eexists _, _. split; reflexivity.
Qed.

End Binary64.

(** ** The geometry *)

Lemma cmd1_of_shape (title video : string) (g : layout) :
  cmd1_of title video g
  = command_head title video ++ placement (win_w g) (win_h g) (x1 g) (y1 g).
Proof.
  unfold cmd1_of, command_head, placement, size_and_origin.
  rewrite !append_assoc. reflexivity.
Qed.

Lemma cmd2_of_shape (title video args : string) (g : layout) :
  cmd2_of title video args g
  = command_head title video ++ " " ++ args
    ++ placement (win_w g) (win_h g) (x2 g) (y2 g).
Proof.
  unfold cmd2_of, command_head, placement, size_and_origin.
  rewrite !append_assoc. reflexivity.
Qed.

(** Whenever the geometry is computed, the origins are the fixed left
    one and the display midpoint plus 5. *)
Lemma geometry_origins (dw vw vh : Z) (g : layout) :
  exact_in_double dw ->
  geometry dw vw vh = OK g ->
  x1 g = "10" /\ y1 g = "35" /\ x2 g = Py.str (dw / 2 + 5) /\ y2 g = "35".
Proof.
  intros Hdw. unfold geometry.
  destruct (int_truediv_2 dw Hdw) as (xf & Hxf & Hxi).
  rewrite Hxf.
  destruct (PyFloat.int_truediv vw vh) as [aspect|]; [|discriminate].
  destruct (PyFloat.int_truediv (dw - 20) 2) as [wf|]; [|discriminate].
  cbn [res_bind].
  destruct (PyFloat.to_int wf) as [vw'|]; [|discriminate]. cbn [res_bind].
  destruct (PyFloat.int_truediv_float vw' aspect) as [hf|]; [|discriminate].
  cbn [res_bind].
  destruct (PyFloat.to_int hf) as [vh'|]; [|discriminate]. cbn [res_bind].
  rewrite Hxi. cbn [res_bind]. intros [= <-]. cbn. repeat split.
Qed.

(** For a display at least 20 wide and a frame of positive width and
    height the geometry is computed: the window is half of the display
    width less 20, and its height is the double-precision one. *)
Lemma geometry_sized (dw vw vh : Z) :
  (20 <= dw < 2 ^ 53)%Z -> (0 < vw < 2 ^ 53)%Z -> (0 < vh < 2 ^ 53)%Z ->
  exists height : Z,
    double_height ((dw - 20) / 2) vw vh = OK height /\
    geometry dw vw vh
    = OK {| win_w := (dw - 20) / 2; win_h := height;
            x1 := "10"; y1 := "35"; x2 := Py.str (dw / 2 + 5); y2 := "35" |}.
Proof.
  intros Hdw Hvw Hvh.
  destruct (int_truediv_pos vw vh Hvw Hvh) as (ma & ea & Ha & Hma & Hea).
  destruct (int_truediv_2 (dw - 20) ltac:(lia)) as (wf & Hwf & Hw).
  assert (Hwidth : (0 <= (dw - 20) / 2 < 2 ^ 53)%Z).
  { split; [apply Z.div_pos; lia | apply Z.div_lt_upper_bound; lia]. }
  destruct (int_truediv_float_defined ((dw - 20) / 2) ma ea Hwidth Hma Hea)
    as (hf & height & Hhf & Hheight).
  destruct (int_truediv_2 dw ltac:(lia)) as (xf & Hxf & Hxi).
  exists height. unfold double_height, geometry.
  rewrite Ha, Hwf, Hxf. cbn [res_bind]. rewrite Hw. cbn [res_bind].
  rewrite Hhf. cbn [res_bind]. rewrite Hheight. cbn [res_bind].
  rewrite Hxi. cbn [res_bind]. split; reflexivity.
Qed.

(** C9: for every display width, the first command line places its
    window at [-left 10 -top 35] and the second one at
    [-left floor(D_w / 2) + 5 -top 35]. *)
Theorem origins_left_10_right_midpoint_plus_5 :
  forall (w : World) (s s' : state) (p : plan),
    exact_in_double (fst (DisplaySize w)) ->
    prepare w s = Next p s' ->
    exists width height : Z,
      cmd1 p = command_head (title1 p) (fst (videos w))
               ++ placement width height "10" "35" /\
      cmd2 p = command_head (title2 p) (snd (videos w))
               ++ " " ++ passthrough_args (argv w)
               ++ placement width height
                    (Py.str (fst (DisplaySize w) / 2 + 5)) "35".
Proof.
  intros w s s' p Hdw H.
  destruct (prepare_Next_inv w s p s' H)
    as (_ & _ & _ & size & g & _ & Hgeo & -> & _).
  destruct (geometry_origins _ _ _ g Hdw Hgeo) as (Hx1 & Hy1 & Hx2 & Hy2).
  exists (win_w g), (win_h g). cbn [cmd1 cmd2 title1 title2].
  rewrite cmd1_of_shape, cmd2_of_shape, Hx1, Hy1, Hx2, Hy2.
  split; reflexivity.
Qed.

Lemma origins_left_10_right_midpoint_plus_5_witness :
  exists width height : Z,
    cmd1 (demo_plan GREY)
    = command_head "1: video1.mp4" "video1.mp4" ++ placement width height "10" "35" /\
    cmd2 (demo_plan GREY)
    = command_head "2: video1.mp4" "video1.mp4" ++ " " ++ GREY
      ++ placement width height (Py.str (1920 / 2 + 5)) "35".
Proof.
  apply (origins_left_10_right_midpoint_plus_5
           (demo_world ["SideBySide.py"; "video1.mp4"; "-same"; "-grey"])
           start (log start [Probe "video1.mp4"]) (demo_plan GREY)).
  - unfold exact_in_double. simpl. lia.
  - vm_compute. reflexivity.
Defined.

(** C4, as the code has it: for a display width from 20 up and a frame
    of positive width and height (all below 2^53), the script reaches
    its command lines; the window width is [floor((D_w - 20) / 2)], the
    window height is [int(width / (V_w / V_h))] in double precision, and
    both command lines carry this width and this height. *)
Theorem window_size_in_both_commands :
  forall (w : World) (s : state) (vw vh : Z),
    (3 <= List.length (argv w))%nat ->
    isfile w (fst (videos w)) = true ->
    isfile w (snd (videos w)) = true ->
    frame_size (ffprobe_stderr w (fst (videos w))) = OK (vw, vh) ->
    (20 <= fst (DisplaySize w) < 2 ^ 53)%Z ->
    (0 < vw < 2 ^ 53)%Z ->
    (0 < vh < 2 ^ 53)%Z ->
    let width := ((fst (DisplaySize w) - 20) / 2)%Z in
    exists (height : Z) (p : plan),
      double_height width vw vh = OK height /\
      prepare w s = Next p (log s [Probe (fst (videos w))]) /\
      cmd1 p = command_head (title1 p) (fst (videos w))
               ++ placement width height "10" "35" /\
      cmd2 p = command_head (title2 p) (snd (videos w))
               ++ " " ++ passthrough_args (argv w)
               ++ placement width height
                    (Py.str (fst (DisplaySize w) / 2 + 5)) "35".
Proof.
  intros w s vw vh Hlen E1 E2 Hsize Hdw Hvw Hvh width.
  destruct (geometry_sized _ vw vh Hdw Hvw Hvh) as (height & Hheight & Hgeo).
  exists height. eexists. split; [exact Hheight|].
  rewrite (prepare_files_present w s Hlen E1 E2). cbn zeta.
  rewrite Hsize. cbn [fst snd]. rewrite Hgeo.
  split; [reflexivity|]. cbn [cmd1 cmd2 title1 title2].
  rewrite cmd1_of_shape, cmd2_of_shape. split; reflexivity.
Qed.

Lemma window_size_in_both_commands_witness :
  exists (height : Z) (p : plan),
    double_height 950 1600 768 = OK height /\
    prepare (sized_world "1600" "768") start = Next p (log start [Probe "video1.mp4"]) /\
    cmd1 p = command_head (title1 p) "video1.mp4" ++ placement 950 height "10" "35" /\
    cmd2 p = command_head (title2 p) "video1.mp4" ++ " " ++ ""
             ++ placement 950 height (Py.str (1920 / 2 + 5)) "35".
Proof.
  apply (window_size_in_both_commands (sized_world "1600" "768") start 1600 768).
  - simpl. lia.
  - reflexivity.
  - reflexivity.
  - vm_compute. reflexivity.
  - simpl. lia.
  - lia.
  - lia.
Defined.

(** C4 as stated fails in three ways.  A frame of width 0 and positive
    height has no window height: the second division raises.  On a 1920
    wide display a 1600x768 video gets the height 455, while
    [floor(950 / (1600 / 768))] is 456.  And below 20 the width is
    truncated toward zero, not floored. *)
Lemma window_height_is_not_the_exact_floor :
  run 0 (sized_world "0" "1080")
  = (Uncaught ZeroDivisionError, [Probe "video1.mp4"]) /\
  (exists g, geometry 1920 1600 768 = OK g /\
             win_w g = 950%Z /\ win_h g = 455%Z /\
             exact_height (win_w g) 1600 768 = 456%Z /\
             win_h g <> exact_height (win_w g) 1600 768) /\
  (exists g, geometry 19 1600 768 = OK g /\
             win_w g = 0%Z /\ ((19 - 20) / 2 = -1)%Z /\
             win_w g <> ((19 - 20) / 2)%Z).
Proof.
  split; [vm_compute; reflexivity|].
  split; eexists; (split; [vm_compute; reflexivity|]);
    repeat split; vm_compute; discriminate.
Qed.

(** * Further properties *)

(** ** The readiness wait and the final loop, step by step *)

Section WaitingMore.

Variable w : World.

Lemma WaitFor_loop_returns title :
  forall (k n fuel : nat) (s : state),
    (k <= n)%nat -> (k <= fuel)%nat ->
    (forall j, (j < k)%nat -> aut_WinActive w title (clock s + j) = false) ->
    aut_WinActive w title (clock s + k) = true ->
    WaitFor_loop w fuel title (Z.of_nat (S n)) s
    = Next tt {| clock := clock s + k;
                 trace := trace s ++ polls title k ++ [WinActive title] |}.
Proof.
  intros k. induction k as [|k IH]; intros n fuel s Hn Hfuel Hbefore Hat.
  - rewrite Nat.add_0_r in Hat.
    destruct fuel; cbn [WaitFor_loop];
      unfold bind, WinActive_call, bind, emit, now, ret; cbn [clock trace];
      rewrite Hat; cbn [polls app]; rewrite Nat.add_0_r; reflexivity.
  - destruct fuel as [|fuel]; [lia|]. destruct n as [|n]; [lia|].
    cbn [WaitFor_loop].
    unfold bind at 1. unfold WinActive_call, bind, emit, now, ret. cbn [clock trace].
    pose proof (Hbefore 0%nat ltac:(lia)) as H0. rewrite Nat.add_0_r in H0. rewrite H0.
    unfold sleep at 1. cbn [clock trace].
    replace (Z.of_nat (S (S n)) - 1)%Z with (Z.of_nat (S n)) by lia.
    replace (Z.of_nat (S n) =? 0)%Z with false by (symmetry; apply Z.eqb_neq; lia).
    rewrite (IH n fuel); cbn [clock trace].
    + f_equal. f_equal; [lia|]. cbn [polls]. rewrite <- !app_assoc. reflexivity.
    + lia.
    + lia.
    + intros j Hj. replace (clock s + 1 + j)%nat with (clock s + S j)%nat by lia.
      apply Hbefore. lia.
    + replace (clock s + 1 + k)%nat with (clock s + S k)%nat by lia. exact Hat.
Qed.

Lemma WaitFor_loop_never_expires title :
  never_active w title ->
  forall (fuel : nat) (timeout : Z) (s : state),
    (timeout <= 0)%Z ->
    WaitFor_loop w fuel title timeout s
    = Halt OutOfFuel {| clock := clock s + S fuel;
                        trace := trace s ++ polls title (S fuel) |}.
Proof.
  intros Hnever fuel. induction fuel as [|fuel IH]; intros timeout s Ht.
  - cbn [WaitFor_loop]. unfold bind, WinActive_call, bind, emit, now, ret, sleep, halt.
    cbn [clock trace]. rewrite Hnever.
    replace (timeout - 1 =? 0)%Z with false by (symmetry; apply Z.eqb_neq; lia).
    cbn [clock trace polls app]. rewrite <- ?app_assoc. cbn [app]. reflexivity.
  - cbn [WaitFor_loop].
    unfold bind at 1. unfold WinActive_call, bind, emit, now, ret. cbn [clock trace].
    rewrite Hnever. unfold sleep at 1. cbn [clock trace].
    replace (timeout - 1 =? 0)%Z with false by (symmetry; apply Z.eqb_neq; lia).
    rewrite IH by lia. cbn [clock trace polls].
    f_equal. f_equal; [lia|]. rewrite <- !app_assoc. reflexivity.
Qed.

Lemma lifecycle_step (fuel : nat) (handle1 handle2 : string) (s : state) :
  lifecycle w fuel handle1 handle2 s
  = let e1 := aut_WinExists w handle1 (clock s) in
    let s2 := if e1 then log s [WinExists handle1]
              else log s [WinExists handle1; WinExists handle2] in
    if e1 || aut_WinExists w handle2 (clock s) then
      if interrupt w (clock s) then Next tt s2
      else
        let s3 := {| clock := clock s + 10; trace := trace s2 ++ [Sleep 10] |} in
        match fuel with
        | O => Halt OutOfFuel s3
        | S fuel' => lifecycle w fuel' handle1 handle2 s3
        end
    else Next tt s2.
Proof.
  destruct fuel; cbn [lifecycle];
    unfold bind, WinExists_call, bind, emit, now, ret, sleep, halt, log;
    cbn [clock trace];
    destruct (aut_WinExists w handle1 (clock s)); cbn [orb clock trace];
    try destruct (aut_WinExists w handle2 (clock s)); cbn [clock trace];
    try destruct (interrupt w (clock s)); cbn [clock trace];
    rewrite <- ?app_assoc; reflexivity.
Qed.

Lemma lifecycle_ends (handle1 handle2 : string) :
  forall (n fuel : nat) (s : state),
    (n <= fuel)%nat ->
    (forall t, (clock s + 10 * n <= t)%nat ->
               aut_WinExists w handle1 t = false /\ aut_WinExists w handle2 t = false) ->
    exists (s' : state) (es : list event),
      lifecycle w fuel handle1 handle2 s = Next tt s'
      /\ (clock s' <= clock s + 10 * n)%nat
      /\ trace s' = (trace s ++ es)%list
      /\ existsb is_Run es = false /\ existsb is_Print es = false.
Proof.
  intros n. induction n as [|n IH]; intros fuel s Hfuel Hgone; rewrite lifecycle_step; cbv zeta.
  - destruct (Hgone (clock s) ltac:(lia)) as [-> ->]. cbn [orb].
    eexists _, _. split; [reflexivity|]. cbn [log clock trace]. repeat split. lia.
  - destruct (aut_WinExists w handle1 (clock s) || aut_WinExists w handle2 (clock s)).
    + destruct (interrupt w (clock s)).
      * destruct (aut_WinExists w handle1 (clock s)); eexists _, _;
          (split; [reflexivity|]); cbn [log clock trace]; repeat split; lia.
      * destruct fuel as [|fuel]; [lia|].
        match goal with |- context [lifecycle w fuel handle1 handle2 ?s3] =>
          destruct (IH fuel s3 ltac:(lia)) as (s' & es & Hs' & Hc & Ht & Hr & Hp) end.
        { intros t Ht. apply Hgone. cbn [clock] in Ht. lia. }
        cbn [clock trace] in Hc, Ht.
        destruct (aut_WinExists w handle1 (clock s)); cbn [log trace] in Ht;
          rewrite <- !app_assoc in Ht; eexists s', _;
          (split; [exact Hs'|]); (split; [lia|]); (split; [exact Ht|]);
          rewrite !existsb_app, Hr, Hp; split; reflexivity.
    + destruct (aut_WinExists w handle1 (clock s)); eexists _, _;
        (split; [reflexivity|]); cbn [log clock trace]; repeat split; lia.
Qed.

End WaitingMore.
(** X1: [WaitFor(title, 5)] returns as soon as the window is active: if
    the window is first active at the [k]-th poll, [k <= 49], the wait
    has slept [k] tenths of a second, printed nothing, and the script
    goes on. *)
Theorem WaitFor_returns_at_first_active_poll :
  forall (w : World) (fuel : nat) (title : string) (k : nat) (s : state),
    (k <= 49)%nat -> (k <= fuel)%nat ->
    (forall j, (j < k)%nat -> aut_WinActive w title (clock s + j) = false) ->
    aut_WinActive w title (clock s + k) = true ->
    WaitFor w fuel title 5 s
    = Next tt {| clock := clock s + k;
                 trace := trace s ++ polls title k ++ [WinActive title] |}.
Proof.
  intros w fuel title k s Hk Hfuel Hbefore Hat. unfold WaitFor.
  change (5 * 10)%Z with (Z.of_nat (S 49)).
  apply WaitFor_loop_returns; assumption.
Qed.

Lemma WaitFor_returns_at_first_active_poll_witness :
  WaitFor (demo_world ["SideBySide.py"; "video1.mp4"; "-same"]) 2 "1: video1.mp4" 5 start
  = Next tt {| clock := 2;
               trace := [WinActive "1: video1.mp4"; Sleep 1;
                         WinActive "1: video1.mp4"; Sleep 1;
                         WinActive "1: video1.mp4"] |}.
Proof.
  apply (WaitFor_returns_at_first_active_poll
           (demo_world ["SideBySide.py"; "video1.mp4"; "-same"]) 2 "1: video1.mp4" 2 start).
  - lia.
  - lia.
  - intros j Hj. destruct j as [|[|j]]; [reflexivity | reflexivity | lia].
  - reflexivity.
Defined.

(** X2: a wait whose timeout is zero or negative never expires: the
    counter is decremented before it is compared with 0, so for a window
    that never becomes active the loop is still polling after any number
    of iterations, and [expired] is never printed. *)
Theorem WaitFor_nonpositive_timeout_never_expires :
  forall (w : World) (title : string) (fuel : nat) (timeout : Z) (s : state),
    never_active w title ->
    (timeout <= 0)%Z ->
    WaitFor w fuel title timeout s
    = Halt OutOfFuel {| clock := clock s + S fuel;
                        trace := trace s ++ polls title (S fuel) |}.
Proof.
  intros w title fuel timeout s Hnever Ht. unfold WaitFor.
  apply WaitFor_loop_never_expires; [assumption | lia].
Qed.

Lemma WaitFor_nonpositive_timeout_never_expires_witness :
  WaitFor (stuck_world ["SideBySide.py"; "video1.mp4"; "-same"]) 60 "1: video1.mp4" 0 start
  = Halt OutOfFuel {| clock := 61; trace := polls "1: video1.mp4" 61 |}.
Proof.
  apply (WaitFor_nonpositive_timeout_never_expires
           (stuck_world ["SideBySide.py"; "video1.mp4"; "-same"]) "1: video1.mp4" 60 0 start).
  - intros t. reflexivity.
  - lia.
Defined.

(** X3: the final loop ends normally once both windows are gone: if
    neither handle exists from [10 * n] tenths of a second after the
    loop starts, the loop returns after at most [n] one-second sleeps
    (an interrupt only ends it sooner), and it neither prints nor starts
    anything. *)
Theorem lifecycle_returns_once_both_windows_are_gone :
  forall (w : World) (handle1 handle2 : string) (n fuel : nat) (s : state),
    (n <= fuel)%nat ->
    (forall t, (clock s + 10 * n <= t)%nat ->
               aut_WinExists w handle1 t = false /\ aut_WinExists w handle2 t = false) ->
    exists (s' : state) (es : list event),
      lifecycle w fuel handle1 handle2 s = Next tt s'
      /\ (clock s' <= clock s + 10 * n)%nat
      /\ trace s' = (trace s ++ es)%list
      /\ existsb is_Run es = false /\ existsb is_Print es = false.
Proof. intros w handle1 handle2 n fuel s. apply lifecycle_ends. Qed.

Lemma lifecycle_returns_once_both_windows_are_gone_witness :
  exists (s' : state) (es : list event),
    lifecycle (demo_world ["SideBySide.py"; "video1.mp4"; "-same"]) 3 "h1" "h2" start
    = Next tt s'
    /\ (clock s' <= 0 + 10 * 3)%nat
    /\ trace s' = ([] ++ es)%list
    /\ existsb is_Run es = false /\ existsb is_Print es = false.
Proof.
  apply (lifecycle_returns_once_both_windows_are_gone
           (demo_world ["SideBySide.py"; "video1.mp4"; "-same"]) "h1" "h2" 3 3 start).
  - lia.
  - intros t Ht. simpl in *. split; apply Nat.ltb_ge; lia.
Defined.

(** ** Launching *)

(** X4: when [aut.Run] returns 0 for the first command, the run prints
    the command line and [Could not start ffplay.exe], and exits; the
    window is never polled and the second command is never started. *)
Theorem failed_start_ends_the_run :
  forall (w : World) (fuel : nat) (p : plan) (s1 : state),
    prepare w start = Next p s1 ->
    aut_Run w (cmd1 p) = 0%Z ->
    run fuel w
    = (Exited,
       (trace s1 ++ [Print ((Py.nl ++ cmd1 p) ++ Py.nl); Run (cmd1 p);
                     Print ("Could not start ffplay.exe" ++ Py.nl)])%list).
Proof.
  intros w fuel p s1 Hprep Hrun. unfold run, main.
  rewrite (bind_Next _ _ _ _ _ Hprep).
  unfold bind at 1. rewrite launch_eq. cbv zeta. rewrite Hrun.
  cbn [Z.eqb log clock trace]. rewrite <- !app_assoc. reflexivity.
Qed.

Lemma failed_start_ends_the_run_witness :
  run 0 no_ffplay_world
  = (Exited,
     ([Probe "video1.mp4"] ++
      [Print ((Py.nl ++ cmd1 (demo_plan "")) ++ Py.nl); Run (cmd1 (demo_plan ""));
       Print ("Could not start ffplay.exe" ++ Py.nl)])%list).
Proof.
  apply (failed_start_ends_the_run no_ffplay_world 0 (demo_plan "")
           (log start [Probe "video1.mp4"])).
  - vm_compute. reflexivity.
  - reflexivity.
Defined.

(** X5: the two window titles always differ, and so do the two command
    lines, also when both windows play the same file. *)
Theorem window_titles_and_commands_differ :
  forall (w : World) (s s' : state) (p : plan),
    prepare w s = Next p s' ->
    title1 p <> title2 p /\ cmd1 p <> cmd2 p.
Proof.
  intros w s s' p H.
  destruct (prepare_Next_inv w s p s' H)
    as (_ & _ & _ & size & g & _ & _ & -> & _).
  cbn [title1 title2 cmd1 cmd2]. split.
  - cbn [append]. discriminate.
  - unfold cmd1_of, cmd2_of, Py.dq. cbn [append]. intros E. discriminate E.
Qed.

Lemma window_titles_and_commands_differ_witness :
  title1 (demo_plan GREY) <> title2 (demo_plan GREY)
  /\ cmd1 (demo_plan GREY) <> cmd2 (demo_plan GREY).
Proof.
  apply (window_titles_and_commands_differ
           (demo_world ["SideBySide.py"; "video1.mp4"; "-same"; "-grey"])
           start (log start [Probe "video1.mp4"]) (demo_plan GREY)).
  vm_compute. reflexivity.
Defined.

(** A started command whose window is first active at the [k]-th poll. *)
Lemma launch_returns w fuel cmd title k s :
  aut_Run w cmd <> 0%Z ->
  (k <= 49)%nat -> (k <= fuel)%nat ->
  (forall j, (j < k)%nat -> aut_WinActive w title (clock s + j) = false) ->
  aut_WinActive w title (clock s + k) = true ->
  launch w fuel cmd title s
  = Next (handle_of w title)
      {| clock := clock s + k;
         trace := trace s ++ [Print ((Py.nl ++ cmd) ++ Py.nl); Run cmd]
                  ++ polls title k ++ [WinActive title; WinGetHandle title] |}.
Proof.
  intros Hrun Hk Hfuel Hbefore Hat. rewrite launch_eq. cbv zeta.
  apply Z.eqb_neq in Hrun. rewrite Hrun.
  unfold WaitFor. change (5 * 10)%Z with (Z.of_nat (S 49)).
  rewrite (WaitFor_loop_returns w title k 49 fuel); try assumption.
  unfold handle_of, log. cbn [clock trace]. f_equal. f_equal.
  rewrite <- !app_assoc. reflexivity.
Qed.

(** X6: a run whose two players start, whose windows become active
    within 49 polls each, and whose windows are gone some time later
    completes normally with exit status 0: it starts the first command,
    polls and takes the first handle, starts the second command, polls
    and takes the second handle, and the final loop adds no print and no
    further start. *)
Theorem run_completes_when_windows_open_and_close :
  forall (w : World) (fuel : nat) (p : plan) (s1 : state) (k1 k2 n : nat),
    prepare w start = Next p s1 ->
    aut_Run w (cmd1 p) <> 0%Z ->
    aut_Run w (cmd2 p) <> 0%Z ->
    (k1 <= 49)%nat -> (k2 <= 49)%nat ->
    (k1 <= fuel)%nat -> (k2 <= fuel)%nat -> (n <= fuel)%nat ->
    (forall j, (j < k1)%nat -> aut_WinActive w (title1 p) j = false) ->
    aut_WinActive w (title1 p) k1 = true ->
    (forall j, (j < k2)%nat -> aut_WinActive w (title2 p) (k1 + j) = false) ->
    aut_WinActive w (title2 p) (k1 + k2) = true ->
    (forall t, (k1 + k2 + 10 * n <= t)%nat ->
               aut_WinExists w (handle_of w (title1 p)) t = false
               /\ aut_WinExists w (handle_of w (title2 p)) t = false) ->
    exists es : list event,
      run fuel w
      = (Completed,
         (trace s1
          ++ [Print ((Py.nl ++ cmd1 p) ++ Py.nl); Run (cmd1 p)]
          ++ polls (title1 p) k1 ++ [WinActive (title1 p); WinGetHandle (title1 p)]
          ++ [Print ((Py.nl ++ cmd2 p) ++ Py.nl); Run (cmd2 p)]
          ++ polls (title2 p) k2 ++ [WinActive (title2 p); WinGetHandle (title2 p)]
          ++ es)%list)
      /\ existsb is_Run es = false /\ existsb is_Print es = false
      /\ exit_status (fst (run fuel w)) = Some 0%Z.
Proof.
  intros w fuel p s1 k1 k2 n Hprep Hr1 Hr2 Hk1 Hk2 Hf1 Hf2 Hfn Hb1 Ha1 Hb2 Ha2 Hgone.
  assert (Hc1 : clock s1 = 0%nat).
  { destruct (prepare_Next_inv w start p s1 Hprep)
      as (_ & _ & _ & size & g & _ & _ & _ & ->). reflexivity. }
  unfold run, main. rewrite (bind_Next _ _ _ _ _ Hprep).
  rewrite (bind_Next _ _ _ _ _
             (launch_returns w fuel (cmd1 p) (title1 p) k1 s1 Hr1 Hk1 Hf1
                ltac:(rewrite Hc1; exact Hb1) ltac:(rewrite Hc1; exact Ha1))).
  match goal with |- context [bind (launch w fuel (cmd2 p) (title2 p)) _ ?st] =>
    set (s2 := st) end.
  assert (Hc2 : clock s2 = k1) by (unfold s2; cbn [clock]; lia).
  rewrite (bind_Next _ _ _ _ _
             (launch_returns w fuel (cmd2 p) (title2 p) k2 s2 Hr2 Hk2 Hf2
                ltac:(rewrite Hc2; exact Hb2) ltac:(rewrite Hc2; exact Ha2))).
  match goal with |- context [lifecycle w fuel _ _ ?st] => set (s3 := st) end.
  assert (Hc3 : clock s3 = (k1 + k2)%nat) by (unfold s3; cbn [clock]; lia).
  destruct (lifecycle_ends w
              (handle_of w (title1 p)) (handle_of w (title2 p)) n fuel s3 Hfn)
    as (s' & es & Hl & _ & Ht & Hrun & Hprint).
  { intros t Ht. apply Hgone. lia. }
  exists es. rewrite Hl. cbn [fst exit_status].
  split; [|repeat split; assumption].
  f_equal. rewrite Ht. unfold s3, s2. cbn [trace].
  rewrite <- !app_assoc. reflexivity.
Qed.

Lemma run_completes_when_windows_open_and_close_witness :
  exists es : list event,
    run 3 (demo_world ["SideBySide.py"; "video1.mp4"; "-same"; "-grey"])
    = (Completed,
       ([Probe "video1.mp4"]
        ++ [Print ((Py.nl ++ cmd1 (demo_plan GREY)) ++ Py.nl); Run (cmd1 (demo_plan GREY))]
        ++ polls "1: video1.mp4" 2 ++ [WinActive "1: video1.mp4"; WinGetHandle "1: video1.mp4"]
        ++ [Print ((Py.nl ++ cmd2 (demo_plan GREY)) ++ Py.nl); Run (cmd2 (demo_plan GREY))]
        ++ polls "2: video1.mp4" 0 ++ [WinActive "2: video1.mp4"; WinGetHandle "2: video1.mp4"]
        ++ es)%list)
    /\ existsb is_Run es = false /\ existsb is_Print es = false
    /\ exit_status (fst (run 3 (demo_world ["SideBySide.py"; "video1.mp4"; "-same"; "-grey"])))
       = Some 0%Z.
Proof.
  apply (run_completes_when_windows_open_and_close
           (demo_world ["SideBySide.py"; "video1.mp4"; "-same"; "-grey"]) 3
           (demo_plan GREY) (log start [Probe "video1.mp4"]) 2 0 3).
  - vm_compute. reflexivity.
  - vm_compute. discriminate.
  - vm_compute. discriminate.
  - lia.
  - lia.
  - lia.
  - lia.
  - lia.
  - intros j Hj. destruct j as [|[|j]]; [reflexivity | reflexivity | lia].
  - reflexivity.
  - intros j Hj. lia.
  - reflexivity.
  - intros t Ht. simpl in *. split; apply Nat.ltb_ge; lia.
Defined.

(** ** More on the argument interpreter *)

Lemma lstrip_spec (chars s : string) :
  exists l, s = l ++ Py.lstrip chars s
            /\ all_in chars l = true
            /\ starts_in chars (Py.lstrip chars s) = false.
Proof.
  induction s as [|c s (l & Hs & Hl & Hst)]; cbn [Py.lstrip].
  - exists "". repeat split.
  - destruct (Py.mem c chars) eqn:Hc.
    + exists (String c l). cbn [append all_in]. rewrite Hc, Hl, <- Hs. repeat split. exact Hst.
    + exists "". cbn [append all_in starts_in]. repeat split. exact Hc.
Qed.

Lemma rstrip_spec (chars s : string) :
  exists r, s = Py.rstrip chars s ++ r
            /\ all_in chars r = true
            /\ ends_in chars (Py.rstrip chars s) = false
            /\ (starts_in chars s = false ->
                starts_in chars (Py.rstrip chars s) = false).
Proof.
  induction s as [|c s (r & Hs & Hr & He & _)]; cbn [Py.rstrip].
  - exists "". repeat split.
  - destruct (Py.rstrip chars s) as [|d u] eqn:Hrs.
    + cbn [append] in Hs. subst s.
      destruct (Py.mem c chars) eqn:Hc.
      * exists (String c r). cbn [append all_in ends_in starts_in]. rewrite Hc, Hr.
        repeat split.
      * exists r. cbn [append all_in ends_in starts_in]. rewrite Hc. repeat split; assumption.
    + exists r. cbn [append]. rewrite Hs at 1. cbn [append].
      split; [reflexivity|]. split; [exact Hr|]. split; [exact He|].
      cbn [starts_in]. tauto.
Qed.

(** X7: with a value after it, [-contrast] and [-gamma] (in any letter
    case) substitute the value without its leading and trailing zeros
    into their template, whatever follows the value; only zeros are
    removed, and the substituted text neither begins nor ends with a
    zero. *)
Theorem shortcut_value_is_stripped_of_zeros :
  forall (prog video1 video2 flag value : string) (rest : list string),
    let v := Py.strip "0" value in
    (exists l r, value = l ++ v ++ r
                 /\ all_in "0" l = true /\ all_in "0" r = true
                 /\ starts_in "0" v = false /\ ends_in "0" v = false) /\
    (Py.lower flag = "-contrast" ->
     passthrough_args (prog :: video1 :: video2 :: flag :: value :: rest)
     = "-vf colorlevels=rimin=" ++ v ++ ":gimin=" ++ v ++ ":bimin=" ++ v) /\
    (Py.lower flag = "-gamma" ->
     passthrough_args (prog :: video1 :: video2 :: flag :: value :: rest)
     = "-vf eq=gamma=" ++ v).
Proof.
  intros prog video1 video2 flag value rest v. split; [|split].
  - unfold v, Py.strip.
    destruct (lstrip_spec "0" value) as (l & Hl & Hal & Hst).
    destruct (rstrip_spec "0" (Py.lstrip "0" value)) as (r & Hr & Har & Hen & Hkeep).
    exists l, r. split; [rewrite Hl at 1; rewrite Hr at 1; reflexivity|].
    repeat split; auto.
  - intros H. unfold passthrough_args; cbn [List.length Nat.ltb Nat.leb nth].
    rewrite H. reflexivity.
  - intros H. unfold passthrough_args; cbn [List.length Nat.ltb Nat.leb nth].
    rewrite H. reflexivity.
Qed.

Lemma shortcut_value_is_stripped_of_zeros_witness :
  passthrough_args ["SideBySide.py"; "a.mp4"; "-same"; "-Contrast"; "0.120"; "-vn"]
  = "-vf colorlevels=rimin=.12:gimin=.12:bimin=.12"
  /\ passthrough_args ["SideBySide.py"; "a.mp4"; "-same"; "-gamma"; "10"]
     = "-vf eq=gamma=1".
Proof.
  split.
  - apply (shortcut_value_is_stripped_of_zeros
             "SideBySide.py" "a.mp4" "-same" "-Contrast" "0.120" ["-vn"]).
    reflexivity.
  - apply (shortcut_value_is_stripped_of_zeros
             "SideBySide.py" "a.mp4" "-same" "-gamma" "10" []).
    reflexivity.
Defined.

(** X8: a first trailing argument that is none of the four shortcuts
    is passed on verbatim, joined with the arguments after it by single
    spaces. *)
Theorem unrecognised_flag_is_passed_verbatim :
  forall (prog video1 video2 flag : string) (rest : list string),
    Py.lower flag <> "-grey" -> Py.lower flag <> "-sepia" ->
    Py.lower flag <> "-contrast" -> Py.lower flag <> "-gamma" ->
    passthrough_args (prog :: video1 :: video2 :: flag :: rest)
    = Py.join " " (flag :: rest).
Proof.
  intros prog video1 video2 flag rest H1 H2 H3 H4.
  unfold passthrough_args; cbn [List.length Nat.ltb Nat.leb nth skipn].
  apply String.eqb_neq in H1, H2, H3, H4. rewrite H1, H2, H3, H4. reflexivity.
Qed.

Lemma unrecognised_flag_is_passed_verbatim_witness :
  passthrough_args ["SideBySide.py"; "a.mp4"; "-same"; "-vf"; "smartblur=5:0.8:0"]
  = "-vf smartblur=5:0.8:0".
Proof.
  apply (unrecognised_flag_is_passed_verbatim
           "SideBySide.py" "a.mp4" "-same" "-vf" ["smartblur=5:0.8:0"]);
    vm_compute; discriminate.
Defined.

(** ** More on the frame size and the geometry *)


(** X10: [int(n / 2)] is [n // 2] for every non-negative int below
    2^53: the division the script uses for the window width and the
    right origin is exact in double precision. *)
Theorem int_of_half_is_floor_half :
  forall n : Z,
    (0 <= n < 2 ^ 53)%Z ->
    (x <- PyFloat.int_truediv n 2 ;; PyFloat.to_int x)%res = OK (n / 2)%Z.
Proof.
  intros n Hn. destruct (int_truediv_2 n Hn) as (f & Hf & Hi).
  rewrite Hf. exact Hi.
Qed.

Lemma int_of_half_is_floor_half_witness :
  (x <- PyFloat.int_truediv 1365 2 ;; PyFloat.to_int x)%res = OK (1365 / 2)%Z.
Proof. apply (int_of_half_is_floor_half 1365). lia. Defined.

(** ** The rounding error of the window height *)

Section HeightError.

Local Open Scope Z_scope.

Lemma pack_value s m e :
  2 ^ 52 <= m <= 2 ^ 53 -> -1074 <= e <= 970 ->
  exists m' k, pack s m e = S754_finite s m' (e + k)
               /\ 0 <= k <= 1 /\ Zpos m' * 2 ^ k = m
               /\ 2 ^ 52 <= Zpos m' < 2 ^ 53.
Proof.
  intros Hm He. destruct (Z.eq_dec m (2 ^ 53)) as [-> | Hne].
  - rewrite pack_carry by lia. exists (Z.to_pos (2 ^ 52)), 1.
    split; [reflexivity|]. cbn. lia.
  - rewrite pack_normal by lia. exists (Z.to_pos m), 0.
    rewrite Z.add_0_r, Z2Pos.id by (cbn in Hm; lia).
    split; [reflexivity|]. cbn [Z.pow]. lia.
Qed.

(** Rounding a mantissa of 53 or 54 bits: the result is normal and
    within two units of the mantissa, at the mantissa's scale. *)
Lemma binary_round_aux_value s m e l :
  2 ^ 52 <= m < 2 ^ 54 -> -1074 <= e <= 969 ->
  exists m' k, binary_round_aux 53 1024 s m e l = S754_finite s m' (e + k)
               /\ 0 <= k <= 2 /\ m - 1 <= Zpos m' * 2 ^ k <= m + 2
               /\ 2 ^ 52 <= Zpos m' < 2 ^ 53.
Proof.
  intros Hm He. rewrite binary_round_aux_pack.
  destruct (Z_lt_le_dec m (2 ^ 53)) as [Hlt | Hge].
  - rewrite shr_fexp_keep by lia. cbv beta iota. rewrite shr_m_of_loc.
    pose proof (round_nearest_even_range m
                  (loc_of_shr_record (shr_record_of_loc m l))) as Hr.
    destruct (pack_value s (round_nearest_even m
                              (loc_of_shr_record (shr_record_of_loc m l)))
                e ltac:(lia) ltac:(lia))
      as (m' & k & Hp & Hk & Hv & Hm').
    exists m', k. split; [exact Hp|]. lia.
  - rewrite shr_fexp_once by lia.
    set (mrs := shr_1 (shr_record_of_loc m l)).
    assert (Hs : shr_m mrs = m / 2)
      by (unfold mrs; rewrite shr_1_m; rewrite shr_m_of_loc; [reflexivity | lia]).
    pose proof (round_nearest_even_range (shr_m mrs) (loc_of_shr_record mrs)) as Hr.
    assert (H2 : 2 ^ 52 <= m / 2 < 2 ^ 53).
    { split; [apply Z.div_le_lower_bound | apply Z.div_lt_upper_bound]; cbn in *; lia. }
    assert (Hd : 2 * (m / 2) <= m <= 2 * (m / 2) + 1).
    { pose proof (Z.div_mod m 2 ltac:(lia)). pose proof (Z.mod_pos_bound m 2 ltac:(lia)). lia. }
    destruct (pack_value s (round_nearest_even (shr_m mrs) (loc_of_shr_record mrs))
                (e + 1) ltac:(lia) ltac:(lia))
      as (m' & k & Hp & Hk & Hv & Hm').
    exists m', (1 + k). replace (e + (1 + k)) with (e + 1 + k) by lia.
    split; [exact Hp|]. rewrite Z.pow_add_r by lia. change (2 ^ 1) with 2.
    split; [lia|]. split; [|exact Hm']. nia.
Qed.

(** The quotient of two finite numbers of at most 53 bits whose
    exponents are far from the limits: a normal number, within two
    units in the last place of the exact quotient. *)
Lemma SFdiv_value (sx sy : bool) (mx my : positive) (ex ey : Z) :
  let dx := Zdigits2 (Zpos mx) in
  let dy := Zdigits2 (Zpos my) in
  dx <= 53 ->
  -1021 <= ex - ey + dx - dy <= 1022 ->
  exists m k,
    SFdiv 53 1024 (S754_finite sx mx ex) (S754_finite sy my ey)
    = S754_finite (xorb sx sy) m (ex - ey + dx - dy - 53 + k)
    /\ 0 <= k <= 2
    /\ - (2 * Zpos my) <= Zpos m * 2 ^ k * Zpos my - Zpos mx * 2 ^ (53 + dy - dx)
       <= 2 * Zpos my
    /\ 2 ^ 52 <= Zpos m < 2 ^ 53.
Proof.
  intros dx dy Hdx He. cbn [SFdiv].
  rewrite SFdiv_core_eq by (fold dx dy; lia). fold dx dy.
  destruct (Zdigits2_bounds (Zpos mx) ltac:(lia)) as (Hx0 & Hx).
  destruct (Zdigits2_bounds (Zpos my) ltac:(lia)) as (Hy0 & Hy).
  fold dx in Hx0, Hx. fold dy in Hy0, Hy.
  pose proof (quotient_bounds _ _ dx dy Hx0 Hy0 Hdx Hx Hy) as Hq.
  destruct (binary_round_aux_value (xorb sx sy) _ (ex - ey + dx - dy - 53)
              (new_location (Zpos my) ((Zpos mx * 2 ^ (53 + dy - dx)) mod Zpos my))
              Hq ltac:(lia)) as (m & k & Hr & Hk & Hv & Hm).
  exists m, k. split; [exact Hr|]. split; [exact Hk|]. split; [|exact Hm].
  set (N := Zpos mx * 2 ^ (53 + dy - dx)) in *.
  pose proof (Z.div_mod N (Zpos my) ltac:(lia)) as Hdm.
  pose proof (Z.mod_pos_bound N (Zpos my) ltac:(lia)) as Hmod.
  nia.
Qed.

(** [a / b] on positive ints below 2^53, with its error. *)
Lemma int_truediv_value (a b : Z) :
  0 < a < 2 ^ 53 -> 0 < b < 2 ^ 53 ->
  exists m k,
    PyFloat.int_truediv a b
    = OK (S754_finite false m (Zdigits2 a - Zdigits2 b - 53 + k))
    /\ 0 <= k <= 2
    /\ - (2 * b) <= Zpos m * 2 ^ k * b - a * 2 ^ (53 + Zdigits2 b - Zdigits2 a) <= 2 * b
    /\ 2 ^ 52 <= Zpos m < 2 ^ 53.
Proof.
  intros Ha Hb.
  destruct a as [|p|p]; try lia. destruct b as [|q|q]; try lia.
  pose proof (Zdigits2_le_53 _ Ha) as Hda. pose proof (Zdigits2_le_53 _ Hb) as Hdb.
  destruct (SFdiv_value false false p q 0 0 ltac:(lia) ltac:(lia))
    as (m & k & Hdiv & Hk & Hv & Hm).
  exists m, k. unfold PyFloat.int_truediv, PyFloat.is_neg, PyFloat.prec, PyFloat.emax.
  cbn [Z.ltb Z.compare Z.abs Z.to_pos]. rewrite Hdiv. cbn [xorb].
  split; [reflexivity|]. split; [exact Hk|]. split; [exact Hv | exact Hm].
Qed.

(** [float(n)] is exact for a positive int below 2^53. *)
Lemma of_int_value (n : Z) :
  0 < n < 2 ^ 53 ->
  exists m,
    PyFloat.of_int n = OK (S754_finite false m (Zdigits2 n - 53))
    /\ Zpos m = n * 2 ^ (53 - Zdigits2 n)
    /\ 2 ^ 52 <= Zpos m < 2 ^ 53.
Proof.
  intros Hn. destruct n as [|p|p]; try lia.
  set (d := Zdigits2 (Zpos p)).
  pose proof (Zdigits2_le_53 (Zpos p) ltac:(lia)) as Hd. fold d in Hd.
  destruct (Zdigits2_bounds (Zpos p) ltac:(lia)) as (_ & Hp). fold d in Hp.
  assert (Hm : 2 ^ 52 <= Zpos p * 2 ^ (53 - d) < 2 ^ 53).
  { assert (0 < 2 ^ (53 - d)) by (apply Z.pow_pos_nonneg; lia).
    assert (E1 : 2 ^ (d - 1) * 2 ^ (53 - d) = 2 ^ 52)
      by (rewrite <- Z.pow_add_r by lia; f_equal; lia).
    assert (E2 : 2 ^ d * 2 ^ (53 - d) = 2 ^ 53)
      by (rewrite <- Z.pow_add_r by lia; f_equal; lia).
    nia. }
  unfold PyFloat.of_int, PyFloat.prec, PyFloat.emax.
  cbn [binary_normalize]. unfold binary_round.
  change (Zpos (digits2_pos p)) with d. rewrite fexp64.
  replace (Z.max (d + 0 - 53) (-1074)) with (d - 53) by lia.
  unfold shl_align. replace (d - 53 - 0) with (d - 53) by lia.
  destruct (d - 53) as [|k|k] eqn:Hk; try lia.
  - assert (Hd53 : 53 - d = 0) by lia. rewrite Hd53 in *. rewrite Z.mul_1_r in Hm.
    rewrite binary_round_aux_exact53 by lia.
    exists p. cbn [Z.to_pos]. split; [reflexivity|]. cbn [Z.pow]. lia.
  - assert (Hkk : Zpos k = 53 - d) by lia.
    assert (Hi : Zpos (Pos.iter xO p k) = Zpos p * 2 ^ (53 - d))
      by (rewrite pos_iter_xO, Hkk; reflexivity).
    rewrite binary_round_aux_exact53 by lia.
    exists (Pos.iter xO p k). cbn [Z.to_pos]. split; [reflexivity|]. lia.
Qed.

Lemma mul_abs_le (x y A B : Z) :
  - A <= x <= A -> - B <= y <= B -> - (A * B) <= x * y <= A * B.
Proof. intros Hx Hy. nia. Qed.

Lemma error_budget (a b W M ma K1 P D T : Z) :
  0 < P -> 0 < D -> 1 <= K1 <= 4 ->
  0 < M < 2 ^ 55 -> 2 ^ 82 <= T -> D * P = K1 * T ->
  0 < b < 2 ^ 24 -> 0 < ma < 2 ^ 53 ->
  - (2 * b) <= ma * K1 * b - a * P <= 2 * b ->
  - (2 * ma) <= M * ma - W * T <= 2 * ma ->
  - D < a * M - W * b * D < D.
Proof.
  intros HP HD HK1 HM HT HDP Hb Hma V1 V2.
  set (e1 := ma * K1 * b - a * P) in *.
  set (e2 := M * ma - W * T) in *.
  assert (Hid : (a * M - W * b * D) * P = (K1 * b) * e2 - M * e1).
  { replace ((a * M - W * b * D) * P) with (M * (a * P) - W * b * (D * P)) by ring.
    rewrite HDP. unfold e1, e2. ring. }
  clearbody e1 e2.
  assert (H1 : - (4 * b * 2 ^ 54) <= (K1 * b) * e2 <= 4 * b * 2 ^ 54).
  { apply mul_abs_le.
    - assert (0 <= K1 * b) by (apply Z.mul_nonneg_nonneg; lia).
      assert (K1 * b <= 4 * b) by (apply Z.mul_le_mono_nonneg_r; lia). lia.
    - change (2 ^ 54) with (2 * 2 ^ 53). lia. }
  assert (H2 : - (2 ^ 55 * (2 * b)) <= M * e1 <= 2 ^ 55 * (2 * b)).
  { apply mul_abs_le; lia. }
  assert (H3 : 4 * b * 2 ^ 54 + 2 ^ 55 * (2 * b) < 2 ^ 82).
  { change (2 ^ 82) with (2 ^ 24 * 2 ^ 58). change (2 ^ 55) with (2 * 2 ^ 54).
    change (2 ^ 58) with (16 * 2 ^ 54). lia. }
  assert (H4 : 2 ^ 82 <= D * P).
  { rewrite HDP. assert (T <= K1 * T) by nia. lia. }
  assert (Hs : - (D * P) < (a * M - W * b * D) * P < D * P) by (rewrite Hid; lia).
  clear - Hs HP. split.
  - apply Z.mul_lt_mono_pos_r with (p := P); [exact HP|]. lia.
  - apply Z.mul_lt_mono_pos_r with (p := P); [exact HP|]. lia.
Qed.

Lemma Zdigits2_le_24 n : 0 < n < 2 ^ 24 -> 0 < Zdigits2 n <= 24.
Proof.
  intros Hn. destruct (Zdigits2_bounds n ltac:(lia)) as (H0 & Hlo & Hhi).
  split; [exact H0|].
  destruct (Z_le_gt_dec (Zdigits2 n) 24) as [H | H]; [exact H|].
  exfalso. assert (2 ^ 24 <= 2 ^ (Zdigits2 n - 1)) by (apply Z.pow_le_mono_r; lia). lia.
Qed.

(** Where a quotient falls when its scaled numerator is known up to less
    than one denominator. *)
Lemma floor_of_close (M D n a N : Z) :
  0 < D -> 0 < a ->
  - D < a * M - N * D < D ->
  n = N / a ->
  n - 1 <= M / D <= n /\ (N mod a <> 0 -> M / D = n).
Proof.
  intros HD Ha Hclose ->.
  pose proof (Z.div_mod N a ltac:(lia)) as HN.
  pose proof (Z.mod_pos_bound N a Ha) as HNm.
  pose proof (Z.div_mod M D ltac:(lia)) as HM.
  pose proof (Z.mod_pos_bound M D HD) as HMm.
  set (h := M / D) in *. set (n := N / a) in *.
  set (r := N mod a) in *. set (u := M mod D) in *.
  assert (Hup : h <= n).
  { destruct (Z_le_gt_dec h n) as [H | H]; [exact H|]. exfalso.
    assert (n + 1 <= h) by lia.
    assert ((n + 1) * D <= h * D) by (apply Z.mul_le_mono_nonneg_r; lia).
    assert (h * D <= M) by lia.
    assert (a * ((n + 1) * D) <= a * M) by (apply Z.mul_le_mono_nonneg_l; lia).
    assert (a * ((n + 1) * D) = (a * (n + 1)) * D) by ring.
    assert ((N + 1) * D <= (a * (n + 1)) * D) by (apply Z.mul_le_mono_nonneg_r; lia).
    lia. }
  assert (Hlow : n - 1 <= h).
  { destruct (Z_le_gt_dec (n - 1) h) as [H | H]; [exact H|]. exfalso.
    assert (h + 1 <= n - 1) by lia.
    assert (M < (h + 1) * D) by nia.
    assert ((h + 1) * D <= (n - 1) * D) by (apply Z.mul_le_mono_nonneg_r; lia).
    assert (a * M < a * ((n - 1) * D)) by (apply Z.mul_lt_mono_pos_l; lia).
    assert (a * ((n - 1) * D) = (a * n) * D - a * D) by ring.
    assert (a * n * D <= N * D) by (apply Z.mul_le_mono_nonneg_r; lia).
    assert (D <= a * D) by nia.
    lia. }
  split; [lia|]. intros Hr.
  destruct (Z.eq_dec h n) as [E | E]; [exact E|]. exfalso.
  assert (h + 1 <= n) by lia.
  assert (M < (h + 1) * D) by nia.
  assert ((h + 1) * D <= n * D) by (apply Z.mul_le_mono_nonneg_r; lia).
  assert (a * M < a * (n * D)) by (apply Z.mul_lt_mono_pos_l; lia).
  assert (1 <= r) by lia.
  assert (a * (n * D) = (a * n) * D) by ring.
  assert ((a * n) * D <= (N - 1) * D) by (apply Z.mul_le_mono_nonneg_r; lia).
  lia.
Qed.


(** The double-precision height against the exact one, for sizes below
    2^24: equal, or one less when the exact quotient is a whole number. *)
Lemma double_height_close (W a b : Z) :
  0 < W < 2 ^ 24 -> 0 < a < 2 ^ 24 -> 0 < b < 2 ^ 24 ->
  exists H,
    double_height W a b = OK H
    /\ W * b / a - 1 <= H <= W * b / a
    /\ ((W * b) mod a <> 0 -> H = W * b / a).
Proof.
  intros HW Ha Hb.
  pose proof (Zdigits2_le_24 W HW) as HdW.
  pose proof (Zdigits2_le_24 a Ha) as Hda.
  pose proof (Zdigits2_le_24 b Hb) as Hdb.
  set (dW := Zdigits2 W) in *. set (da := Zdigits2 a) in *. set (db := Zdigits2 b) in *.
  destruct (int_truediv_value a b ltac:(lia) ltac:(lia)) as (ma & k1 & Hasp & Hk1 & V1 & Hma).
  fold da db in Hasp, V1.
  destruct (of_int_value W ltac:(lia)) as (mw & Hx & Hmw & Hmwr).
  fold dW in Hx, Hmw.
  assert (Hdmw : Zdigits2 (Zpos mw) = 53) by (apply Zdigits2_unique; lia).
  assert (Hdma : Zdigits2 (Zpos ma) = 53) by (apply Zdigits2_unique; lia).
  destruct (SFdiv_value false false mw ma (dW - 53) (da - db - 53 + k1)
              ltac:(rewrite Hdmw; lia) ltac:(rewrite Hdmw, Hdma; lia))
    as (mh & k2 & Hdiv & Hk2 & V2 & Hmh).
  rewrite Hdmw, Hdma in Hdiv, V2. cbn [xorb] in Hdiv.
  replace (53 + 53 - 53) with 53 in V2 by lia.
  set (eh := dW - 53 - (da - db - 53 + k1) + 53 - 53 - 53 + k2) in *.
  exists (Z.shiftl (Zpos mh) eh).
  split.
  { unfold double_height. rewrite Hasp. cbn [res_bind].
    unfold PyFloat.int_truediv_float. rewrite Hx. cbn [res_bind PyFloat.truediv].
    unfold PyFloat.prec, PyFloat.emax. rewrite Hdiv. reflexivity. }
  set (g := 53 + da - db - dW + k1).
  assert (Hg : 0 < g) by (unfold g; lia).
  assert (Heh : - eh = g - k2) by (unfold eh, g; lia).
  rewrite Z.shiftl_div_pow2 by lia. rewrite Heh.
  assert (Hshift : Zpos mh / 2 ^ (g - k2) = (Zpos mh * 2 ^ k2) / 2 ^ g).
  { replace g with ((g - k2) + k2) at 2 by lia.
    rewrite Z.pow_add_r by lia.
    rewrite Z.div_mul_cancel_r; [reflexivity | |];
      apply Z.neq_sym, Z.lt_neq, Z.pow_pos_nonneg; lia. }
  rewrite Hshift.
  apply floor_of_close with (N := W * b); [apply Z.pow_pos_nonneg; lia | lia | | reflexivity].
  assert (HK1 : 1 <= 2 ^ k1 <= 4).
  { assert (k1 = 0 \/ k1 = 1 \/ k1 = 2) as [-> | [-> | ->]] by lia; cbn; lia. }
  assert (HK2 : 1 <= 2 ^ k2 <= 4).
  { assert (k2 = 0 \/ k2 = 1 \/ k2 = 2) as [-> | [-> | ->]] by lia; cbn; lia. }
  assert (HM : 0 < Zpos mh * 2 ^ k2 < 2 ^ 55).
  { change (2 ^ 55) with (2 ^ 53 * 4). clear - Hmh HK2.
    set (K2 := 2 ^ k2) in *. clearbody K2. nia. }
  apply error_budget with (ma := Zpos ma) (K1 := 2 ^ k1)
                          (P := 2 ^ (53 + db - da)) (T := 2 ^ (106 - dW)).
  - apply Z.pow_pos_nonneg; lia.
  - apply Z.pow_pos_nonneg; lia.
  - exact HK1.
  - exact HM.
  - apply Z.pow_le_mono_r; lia.
  - rewrite <- !Z.pow_add_r by lia. f_equal. unfold g. lia.
  - lia.
  - lia.
  - exact V1.
  - replace (W * 2 ^ (106 - dW)) with (Zpos mw * 2 ^ 53); [exact V2|].
    rewrite Hmw. rewrite <- Z.mul_assoc, <- Z.pow_add_r by lia.
    do 2 f_equal. lia.
Qed.

End HeightError.

Lemma exact_height_div (W vw vh : Z) :
  (0 < vw)%Z -> (0 < vh)%Z -> exact_height W vw vh = (W * vh / vw)%Z.
Proof.
  intros Hvw Hvh. destruct vw as [|p|p]; try lia. destruct vh as [|q|q]; try lia.
  unfold exact_height, Qdiv, Qmult, Qinv, inject_Z, Qfloor. cbn [Qnum Qden Z.mul Pos.mul].
  rewrite Pos.mul_1_r. reflexivity.
Qed.

Lemma double_height_zero (a b : Z) :
  (0 < a < 2 ^ 53)%Z -> (0 < b < 2 ^ 53)%Z -> double_height 0 a b = OK 0%Z.
Proof.
  intros Ha Hb. destruct (int_truediv_pos a b Ha Hb) as (m & e & Hasp & _).
  unfold double_height. rewrite Hasp. reflexivity.
Qed.

(** X11: for a display between 20 and 2^25 pixels wide and a frame of
    positive width and height below 2^24, the window height the script
    computes is the exact [floor(width * V_h / V_w)] or one less, and it
    can be one less only when [V_w] divides [width * V_h]. *)
Theorem window_height_is_exact_floor_or_one_less :
  forall dw vw vh : Z,
    (20 <= dw < 2 ^ 25)%Z -> (0 < vw < 2 ^ 24)%Z -> (0 < vh < 2 ^ 24)%Z ->
    exists g : layout,
      geometry dw vw vh = OK g /\
      win_w g = ((dw - 20) / 2)%Z /\
      (exact_height (win_w g) vw vh - 1 <= win_h g <= exact_height (win_w g) vw vh)%Z /\
      (((win_w g * vh) mod vw)%Z <> 0%Z -> win_h g = exact_height (win_w g) vw vh).
Proof.
  intros dw vw vh Hdw Hvw Hvh.
  destruct (geometry_sized dw vw vh ltac:(lia) ltac:(lia) ltac:(lia))
    as (height & Hheight & Hgeo).
  eexists. split; [exact Hgeo|]. cbn [win_w win_h]. split; [reflexivity|].
  rewrite exact_height_div by lia.
  assert (HW : (0 <= (dw - 20) / 2 < 2 ^ 24)%Z).
  { split; [apply Z.div_pos; lia | apply Z.div_lt_upper_bound; lia]. }
  destruct (Z.eq_dec ((dw - 20) / 2) 0) as [E | E].
  - rewrite E in *. rewrite double_height_zero in Hheight by lia.
    injection Hheight as <-. cbn [Z.mul]. rewrite Z.div_0_l, Z.mod_0_l by lia.
    split; [lia | intros H; now contradict H].
  - destruct (double_height_close ((dw - 20) / 2) vw vh ltac:(lia) Hvw Hvh)
      as (H & HH & Hbounds & Hexact).
    rewrite HH in Hheight. injection Hheight as <-. split; assumption.
Qed.

Lemma window_height_is_exact_floor_or_one_less_witness :
  exists g : layout,
    geometry 1920 1600 768 = OK g /\
    win_w g = ((1920 - 20) / 2)%Z /\
    (exact_height (win_w g) 1600 768 - 1 <= win_h g <= exact_height (win_w g) 1600 768)%Z /\
    (((win_w g * 768) mod 1600)%Z <> 0%Z -> win_h g = exact_height (win_w g) 1600 768).
Proof.
  apply (window_height_is_exact_floor_or_one_less 1920 1600 768); lia.
Defined.
